(** * Task Manager API (app.js): a shallow embedding and its properties

    The service keeps one array [tasks] in memory and answers six routes.
    Each route handler is embedded as a function from the store (and the
    parts of the request it reads) to the new store and the response.

    Conventions of the embedding
    - A JavaScript value is a [value]. A number is the integer [Z] it
      denotes: every number the handlers compute with (ids, time
      values) is an integer-valued, finite double. Where the code
      produces a new number ([maxId + 1], [parseInt]) the result is
      rounded to a double by [to_double]; it is exact up to magnitude
      2^53. A number with a fraction in a request body behaves like a
      non-zero integer for everything the code does with body fields
      (typeof, truthiness, includes).
    - A string is a [string] whose characters are read as code units
      below 256 (Latin-1), which fixes white space and lower-casing.
    - [VObject] stands for an object or an array; the handlers only look
      at its typeof and truthiness.
    - The clock is explicit: a handler that calls
      [new Date().toISOString()] receives that text as [now]. *)

From Stdlib Require Import ZArith Lia Bool Ascii String Sorted Permutation.
From stdpp Require Import base option list sorting.

Local Open Scope string_scope.
Local Open Scope Z_scope.

(** ** JavaScript values *)

Inductive value : Type :=
  | VUndefined
  | VNull
  | VBool (b : bool)
  | VNumber (n : Z)
  | VString (s : string)
  | VObject.

(** [typeof v] *)
Definition typeof (v : value) : string :=
  match v with
  | VUndefined => "undefined"
  | VNull => "object"
  | VBool _ => "boolean"
  | VNumber _ => "number"
  | VString _ => "string"
  | VObject => "object"
  end.

(** ToBoolean: what [!v] and [v || w] test. *)
Definition truthy (v : value) : bool :=
  match v with
  | VUndefined | VNull => false
  | VBool b => b
  | VNumber n => negb (n =? 0)
  | VString s => negb (String.eqb s "")
  | VObject => true
  end.

(** [v || w] *)
Definition or_else (v w : value) : value := if truthy v then v else w.

(** [v === w]. Two objects are equal only when they are the same
    reference; [VObject] carries no identity and the handlers compare
    only against primitives, so objects are never equal here. *)
Definition strict_equals (v w : value) : bool :=
  match v, w with
  | VUndefined, VUndefined => true
  | VNull, VNull => true
  | VBool a, VBool b => Bool.eqb a b
  | VNumber a, VNumber b => a =? b
  | VString a, VString b => String.eqb a b
  | _, _ => false
  end.

Definition is_undefined (v : value) : bool :=
  match v with VUndefined => true | _ => false end.

(** [arr.includes(v)] for an array of string literals. *)
Definition includes (arr : list string) (v : value) : bool :=
  match v with
  | VString s => existsb (String.eqb s) arr
  | _ => false
  end.

(** ** Strings *)

Definition code (c : ascii) : Z := Z.of_N (N_of_ascii c).

(** White space and line terminators below 256: TAB, LF, VT, FF, CR,
    SP and NBSP. *)
Definition is_white_space (c : ascii) : bool :=
  let n := code c in
  ((9 <=? n) && (n <=? 13)) || (n =? 32) || (n =? 160).

Fixpoint trimStart (s : string) : string :=
  match s with
  | EmptyString => EmptyString
  | String c s' => if is_white_space c then trimStart s' else s
  end.

Fixpoint trimEnd (s : string) : string :=
  match s with
  | EmptyString => EmptyString
  | String c s' =>
      match trimEnd s' with
      | EmptyString => if is_white_space c then EmptyString else String c EmptyString
      | r => String c r
      end
  end.

(** [s.trim()] *)
Definition trim (s : string) : string := trimEnd (trimStart s).

Definition lower_char (c : ascii) : ascii :=
  let n := code c in
  if ((65 <=? n) && (n <=? 90))
     || ((192 <=? n) && (n <=? 222) && negb (n =? 215))
  then ascii_of_N (Z.to_N (n + 32))
  else c.

(** Only white space, or empty. *)
Fixpoint all_white_space (s : string) : bool :=
  match s with
  | EmptyString => true
  | String c s' => is_white_space c && all_white_space s'
  end.

(** [s.toLowerCase()] *)
Fixpoint toLowerCase (s : string) : string :=
  match s with
  | EmptyString => EmptyString
  | String c s' => String (lower_char c) (toLowerCase s')
  end.

(** ** Doubles

    The double nearest to the integer [z], ties to the even mantissa:
    what a number operation of the code returns for the exact result
    [z]. The 53 leading bits are kept. Overflow to Infinity, beyond
    2^1024, is left out. *)
Definition to_double (z : Z) : Z :=
  let a := Z.abs z in
  let e := Z.log2 a in
  if e <? 53 then z
  else
    let ulp := 2 ^ (e - 52) in
    let q := a / ulp in
    let r := a mod ulp in
    let q' := if 2 * r <? ulp then q
              else if ulp <? 2 * r then q + 1
              else if Z.even q then q else q + 1 in
    Z.sgn z * (q' * ulp).

(** ** parseInt

    [parseInt(s)] without a radix: skip leading white space, read a
    sign, switch to radix 16 after a [0x] or [0X] prefix, then read the
    longest run of digits. No digit at all gives NaN, here [None];
    otherwise the result is the double nearest to the number read. *)

Definition digit_value (c : ascii) : option Z :=
  let n := code c in
  if (48 <=? n) && (n <=? 57) then Some (n - 48)
  else if (97 <=? n) && (n <=? 102) then Some (n - 87)
  else if (65 <=? n) && (n <=? 70) then Some (n - 55)
  else None.

Definition digit_in (radix : Z) (c : ascii) : option Z :=
  match digit_value c with
  | Some d => if d <? radix then Some d else None
  | None => None
  end.

(** Value of the longest prefix of radix digits, [None] when it is empty. *)
Fixpoint read_digits (radix : Z) (acc : option Z) (s : string) : option Z :=
  match s with
  | EmptyString => acc
  | String c s' =>
      match digit_in radix c with
      | Some d => read_digits radix (Some (default 0 acc * radix + d)) s'
      | None => acc
      end
  end.

Definition strip_sign (s : string) : Z * string :=
  match s with
  | String "-" s' => (-1, s')
  | String "+" s' => (1, s')
  | _ => (1, s)
  end.

Definition strip_hex_prefix (s : string) : Z * string :=
  match s with
  | String "0" (String "x" s') => (16, s')
  | String "0" (String "X" s') => (16, s')
  | _ => (10, s)
  end.

Definition parseInt (s : string) : option Z :=
  let '(sign, s1) := strip_sign (trimStart s) in
  let '(radix, s2) := strip_hex_prefix s1 in
  match read_digits radix None s2 with
  | Some n => Some (to_double (sign * n))
  | None => None
  end.

(** ** The task store and request bodies *)

(** A stored task. [task_id] is a number; the other fields hold whatever
    value was put there: the fields copied from a validated body, and
    the [priority] and [createdAt] that may be missing in the start-up
    file. Further fields a record of that file may carry are left out:
    no handler reads them. *)
Record Task : Type := mkTask {
  task_id : Z;
  task_title : value;
  task_description : value;
  task_completed : value;
  task_priority : value;
  task_createdAt : value
}.

(** [req.body]: the fields a client may send, [VUndefined] when absent.
    [body_id] and [body_createdAt] are there because a client can send
    them; no handler reads them. *)
Record Body : Type := mkBody {
  body_id : value;
  body_title : value;
  body_description : value;
  body_completed : value;
  body_priority : value;
  body_createdAt : value
}.

(** [req.query] of GET /tasks. *)
Record Query : Type := mkQuery {
  query_completed : value;
  query_sort : value
}.

(** What [res.status(n).json(x)] sends. [JServerError] is the answer of
    Express when a handler throws. *)
Inductive payload : Type :=
  | JTasks (l : list Task)
  | JTask (t : Task)
  | JError (error : string)
  | JMessage (message : string)
  | JServerError.

Record Response : Type := mkResponse {
  status : Z;
  json : payload
}.

(** ** validateTask *)

Inductive validation : Type :=
  | Valid
  | Invalid (message : string).

Definition validPriorities : list string := ["low"; "medium"; "high"].

(** [typeof v !== 'string' || v.trim().length === 0] *)
Definition not_nonempty_string (v : value) : bool :=
  match v with
  | VString s => (Z.of_nat (String.length (trim s)) =? 0)
  | _ => true
  end.

Definition validateTask (task : Body) (requireAllFields : bool) : validation :=
  let check_priority :=
    if negb (is_undefined (body_priority task)) then
      if negb (includes validPriorities (body_priority task))
      then Invalid "priority must be one of: low, medium, high"
      else Valid
    else Valid in
  if requireAllFields then
    if negb (truthy (body_title task)) || not_nonempty_string (body_title task)
    then Invalid "title is required and must be a non-empty string"
    else if negb (truthy (body_description task))
            || not_nonempty_string (body_description task)
    then Invalid "description is required and must be a non-empty string"
    else if is_undefined (body_completed task)
            || negb (String.eqb (typeof (body_completed task)) "boolean")
    then Invalid "completed is required and must be a boolean"
    else check_priority
  else
    if negb (is_undefined (body_title task)) && not_nonempty_string (body_title task)
    then Invalid "title must be a non-empty string"
    else if negb (is_undefined (body_description task))
            && not_nonempty_string (body_description task)
    then Invalid "description must be a non-empty string"
    else if negb (is_undefined (body_completed task))
            && negb (String.eqb (typeof (body_completed task)) "boolean")
    then Invalid "completed must be a boolean"
    else check_priority.

(** ** Arrays *)

(** [arr.findIndex(p)]; [None] is the index -1. *)
Fixpoint findIndex {A : Type} (p : A -> bool) (arr : list A) : option nat :=
  match arr with
  | [] => None
  | x :: arr' => if p x then Some O else option_map S (findIndex p arr')
  end.

(** [arr.filter(p)] for a callback that may throw ([None]). *)
Fixpoint filter_throwing {A : Type} (p : A -> option bool) (arr : list A)
  : option (list A) :=
  match arr with
  | [] => Some []
  | x :: arr' =>
      match p x with
      | None => None
      | Some keep =>
          match filter_throwing p arr' with
          | None => None
          | Some r => Some (if keep then x :: r else r)
          end
      end
  end.

(** [arr.sort(compare)]: a stable sort. The comparator returns a number
    or NaN ([None]), and NaN counts as 0. [insert_sorted x l] puts [x],
    which stood before the elements of [l], in front of the first
    element it does not have to follow. With a consistent comparator
    every stable sort gives this result. With a comparator that is NaN
    on some pairs and not on others the result of an engine depends on
    its algorithm and may differ from this one on three or more
    elements; the statements below use such a comparator on two
    elements only, or where it asks for no move. *)
Definition SortCompare (v : option Z) : Z := default 0 v.

Fixpoint insert_sorted {A : Type} (compare : A -> A -> option Z) (x : A)
  (l : list A) : list A :=
  match l with
  | [] => [x]
  | y :: l' =>
      if SortCompare (compare x y) <=? 0 then x :: y :: l'
      else y :: insert_sorted compare x l'
  end.

Definition Array_sort {A : Type} (compare : A -> A -> option Z) (arr : list A)
  : list A :=
  foldr (insert_sorted compare) [] arr.

(** [Math.max(x, ...xs)] *)
Definition Math_max (x : Z) (xs : list Z) : Z := fold_left Z.max xs x.

(** ** Start-up: the tasks of task.json, with defaults filled in

    [file] is the [tasks] array of the file, [None] when reading or
    parsing failed or the file has no array; [clock i] is the clock text
    at the i-th record. *)
Definition backfill (now : string) (task : Task) : Task :=
  {| task_id := task_id task;
     task_title := task_title task;
     task_description := task_description task;
     task_completed := task_completed task;
     task_priority := or_else (task_priority task) (VString "medium");
     task_createdAt := or_else (task_createdAt task) (VString now) |}.

Definition initial_tasks (clock : nat -> string) (file : option (list Task))
  : list Task :=
  match file with
  | Some tasks => imap (fun i task => backfill (clock i) task) tasks
  | None => []
  end.

(** What start-up and create give every task: a truthy priority and a
    truthy createdAt. *)
Definition backfilled (t : Task) : bool :=
  truthy (task_priority t) && truthy (task_createdAt t).

(** [(task.priority || 'medium')] is a string, so it has toLowerCase. *)
Definition priority_is_text (t : Task) : bool :=
  match or_else (task_priority t) (VString "medium") with
  | VString _ => true
  | _ => false
  end.

(** ** The route handlers *)

Definition not_found : Response :=
  {| status := 404; json := JError "Task not found" |}.

(** [t.id === id] with [id] the result of parseInt; NaN equals nothing. *)
Definition id_is (id : option Z) (t : Task) : bool :=
  match id with
  | Some n => task_id t =? n
  | None => false
  end.

Section Routes.

(** [Date.parse]: the time value of a date text, [None] for NaN. *)
Variable Date_parse : string -> option Z.

(** The time value of [new Date(v)], [None] for an invalid date. *)
Definition new_Date (v : value) : option Z :=
  match v with
  | VUndefined => None
  | VNull => Some 0
  | VBool b => Some (if b then 1 else 0)
  | VNumber n => if Z.abs n <=? 8640000000000000 then Some n else None
  | VString s => Date_parse s
  | VObject => None
  end.

(** [dateA - dateB] *)
Definition date_minus (a b : option Z) : option Z :=
  match a, b with
  | Some x, Some y => Some (x - y)
  | _, _ => None
  end.

Definition compare_createdAt (sort : value) (a b : Task) : option Z :=
  let dateA := new_Date (or_else (task_createdAt a) (VNumber 0)) in
  let dateB := new_Date (or_else (task_createdAt b) (VNumber 0)) in
  if strict_equals sort (VString "oldest") then date_minus dateA dateB
  else date_minus dateB dateA.

(** GET /tasks *)
Definition get_tasks (query : Query) (tasks : list Task) : Response :=
  let filteredTasks :=
    if negb (is_undefined (query_completed query)) then
      let completedFilter :=
        strict_equals (query_completed query) (VString "true") in
      List.filter
        (fun task => strict_equals (task_completed task) (VBool completedFilter))
        tasks
    else tasks in
  {| status := 200;
     json := JTasks (Array_sort (compare_createdAt (query_sort query))
                       filteredTasks) |}.

End Routes.

(** GET /tasks/priority/:level *)
Definition priority_matches (level : string) (task : Task) : option bool :=
  match or_else (task_priority task) (VString "medium") with
  | VString p => Some (String.eqb (toLowerCase p) level)
  | _ => None
  end.

Definition get_tasks_priority (level_param : string) (tasks : list Task)
  : Response :=
  let level := toLowerCase level_param in
  if negb (includes validPriorities (VString level)) then
    {| status := 400;
       json := JError "Invalid priority level. Must be one of: low, medium, high" |}
  else
    match filter_throwing (priority_matches level) tasks with
    | Some filteredTasks => {| status := 200; json := JTasks filteredTasks |}
    | None => {| status := 500; json := JServerError |}
    end.

(** GET /tasks/:id *)
Definition get_tasks_id (id_param : string) (tasks : list Task) : Response :=
  let id := parseInt id_param in
  match List.find (id_is id) tasks with
  | None => not_found
  | Some task => {| status := 200; json := JTask task |}
  end.

(** POST /tasks. [Math.max(...ids)] passes every id as an argument of
    one call, and a call with more arguments than the engine's stack
    takes throws a RangeError, which Express answers with 500. The
    limit depends on the engine and on the stack left; it is about
    125000 on V8 with its default stack and taken as that here.
    [maxId + 1] is an addition of doubles. *)
Definition argument_limit : Z := 125000.

Definition maxId (tasks : list Task) : Z :=
  match map task_id tasks with
  | [] => 0
  | x :: xs => Math_max x xs
  end.

Definition post_tasks (now : string) (body : Body) (tasks : list Task)
  : list Task * Response :=
  match validateTask body true with
  | Invalid message => (tasks, {| status := 400; json := JError message |})
  | Valid =>
      if argument_limit <? Z.of_nat (length tasks) then
        (tasks, {| status := 500; json := JServerError |})
      else
      let newTask :=
        {| task_id := to_double (maxId tasks + 1);
           task_title := body_title body;
           task_description := body_description body;
           task_completed := body_completed body;
           task_priority := or_else (body_priority body) (VString "medium");
           task_createdAt := VString now |} in
      ((tasks ++ [newTask])%list, {| status := 201; json := JTask newTask |})
  end.

(** PUT /tasks/:id. The index is -1 whenever [id] is NaN, so [id] is a
    number where the record is written; reading [tasks[taskIndex]]
    outside the array would give undefined and throw at [.priority]. *)
Definition put_tasks_id (now : string) (id_param : string) (body : Body)
  (tasks : list Task) : list Task * Response :=
  let id := parseInt id_param in
  match findIndex (id_is id) tasks, id with
  | Some taskIndex, Some id =>
      match validateTask body true with
      | Invalid message => (tasks, {| status := 400; json := JError message |})
      | Valid =>
          match tasks !! taskIndex with
          | None => (tasks, {| status := 500; json := JServerError |})
          | Some existingTask =>
              let updated :=
                {| task_id := id;
                   task_title := body_title body;
                   task_description := body_description body;
                   task_completed := body_completed body;
                   task_priority :=
                     or_else (body_priority body)
                       (or_else (task_priority existingTask) (VString "medium"));
                   task_createdAt :=
                     or_else (task_createdAt existingTask) (VString now) |} in
              (<[taskIndex := updated]> tasks,
               {| status := 200; json := JTask updated |})
          end
      end
  | _, _ => (tasks, not_found)
  end.

(** DELETE /tasks/:id *)
Definition delete_tasks_id (id_param : string) (tasks : list Task)
  : list Task * Response :=
  let id := parseInt id_param in
  match findIndex (id_is id) tasks with
  | None => (tasks, not_found)
  | Some taskIndex =>
      (delete taskIndex tasks,
       {| status := 200; json := JMessage "Task deleted successfully" |})
  end.

(** ** A concrete [Date.parse]

    The one format the server itself writes with [toISOString]:
    [YYYY-MM-DDTHH:mm:ss.sssZ], 24 characters, with a day that the
    month has. Every other text is taken as unparseable; an engine
    accepts more (a date without time, hour 24, day 30 of February).
    Used only on texts where it agrees with the engines, where a
    statement needs a concrete parser; the general statements hold for
    every [Date_parse]. *)

(** The number written by the [len] decimal digits of [s] from [start]. *)
Fixpoint fixed_digits (len : nat) (acc : Z) (s : string) : option Z :=
  match len with
  | O => Some acc
  | S len' =>
      match s with
      | String c s' =>
          match digit_in 10 c with
          | Some d => fixed_digits len' (acc * 10 + d) s'
          | None => None
          end
      | EmptyString => None
      end
  end.

Definition field (s : string) (start len : nat) : option Z :=
  fixed_digits len 0 (String.substring start len s).

Definition char_at (s : string) (i : nat) (c : ascii) : bool :=
  match String.get i s with
  | Some c' => Ascii.eqb c c'
  | None => false
  end.

Definition leap_year (y : Z) : bool :=
  ((y mod 4 =? 0) && negb (y mod 100 =? 0)) || (y mod 400 =? 0).

Definition days_in_month (y m : Z) : Z :=
  if m =? 2 then (if leap_year y then 29 else 28)
  else if (m =? 4) || (m =? 6) || (m =? 9) || (m =? 11) then 30
  else 31.

(** Days from 1970-01-01 to the civil date y-m-d. *)
Definition days_from_civil (y m d : Z) : Z :=
  let y' := if m <=? 2 then y - 1 else y in
  let era := y' / 400 in
  let yoe := y' - era * 400 in
  let doy := (153 * (if 2 <? m then m - 3 else m + 9) + 2) / 5 + d - 1 in
  let doe := yoe * 365 + yoe / 4 - yoe / 100 + doy in
  era * 146097 + doe - 719468.

Definition Date_parse_iso (s : string) : option Z :=
  if (Nat.eqb (String.length s) 24)
     && char_at s 4 "-" && char_at s 7 "-" && char_at s 10 "T"
     && char_at s 13 ":" && char_at s 16 ":" && char_at s 19 "."
     && char_at s 23 "Z"
  then
    match field s 0 4, field s 5 2, field s 8 2,
          field s 11 2, field s 14 2, field s 17 2, field s 20 3 with
    | Some y, Some mo, Some d, Some h, Some mi, Some sec, Some ms =>
        if (1 <=? mo) && (mo <=? 12) && (1 <=? d) && (d <=? days_in_month y mo)
           && (h <=? 23) && (mi <=? 59) && (sec <=? 59)
        then Some ((((days_from_civil y mo d * 24 + h) * 60 + mi) * 60 + sec)
                   * 1000 + ms)
        else None
    | _, _, _, _, _, _, _ => None
    end
  else None.

(** ** Sequences of create and delete requests *)

Inductive op : Type :=
  | Create (now : string) (body : Body)
  | Delete (id_param : string).

(** What a request did to the ids, if anything. *)
Inductive event : Type :=
  | Assigned (id : Z)
  | Removed (id : Z).

(** One request: the new store and the event. A create that answers
    with a task assigned that task's id; a delete that answers 200
    removed the task with the parsed id. *)
Definition step (o : op) (tasks : list Task) : list Task * option event :=
  match o with
  | Create now body =>
      let '(tasks', res) := post_tasks now body tasks in
      (tasks',
       match json res with
       | JTask t => Some (Assigned (task_id t))
       | _ => None
       end)
  | Delete id_param =>
      let '(tasks', res) := delete_tasks_id id_param tasks in
      (tasks',
       if status res =? 200 then option_map Removed (parseInt id_param)
       else None)
  end.

(** The store after the requests [ops]. *)
Fixpoint store_after (ops : list op) (tasks : list Task) : list Task :=
  match ops with
  | [] => tasks
  | o :: ops' => store_after ops' (fst (step o tasks))
  end.

(** The events of [ops] in order, each with the store it found. *)
Fixpoint trace (ops : list op) (tasks : list Task)
  : list (list Task * event) :=
  match ops with
  | [] => []
  | o :: ops' =>
      let rest := trace ops' (fst (step o tasks)) in
      match snd (step o tasks) with
      | Some e => (tasks, e) :: rest
      | None => rest
      end
  end.

Definition events (ops : list op) (tasks : list Task) : list event :=
  map snd (trace ops tasks).

Fixpoint assigned (evs : list event) : list Z :=
  match evs with
  | [] => []
  | Assigned n :: evs' => n :: assigned evs'
  | Removed _ :: evs' => assigned evs'
  end.



(** ** The decimal text of an id, as a client writes it in a path *)

Definition is_decimal_char (c : ascii) : bool :=
  (48 <=? code c) && (code c <=? 57).

Fixpoint decimal_string (s : string) : bool :=
  match s with
  | EmptyString => true
  | String c s' => is_decimal_char c && decimal_string s'
  end.

Fixpoint decimal_digits (fuel : nat) (n : Z) (acc : string) : string :=
  let acc' := String (ascii_of_N (Z.to_N (48 + n mod 10))) acc in
  match fuel with
  | O => acc'
  | S fuel' => if n <? 10 then acc' else decimal_digits fuel' (n / 10) acc'
  end.

Definition decimal (n : Z) : string :=
  let digits := decimal_digits (Z.to_nat (Z.log2 (Z.abs n))) (Z.abs n) "" in
  if n <? 0 then String "-" digits else digits.

(** ** The validation rules as the specification lists them

    Four rules in a fixed order; a body is rejected with the message of
    the first rule it breaks. *)

Inductive rule : Type := RTitle | RDescription | RCompleted | RPriority.

Definition rule_order : list rule :=
  [RTitle; RDescription; RCompleted; RPriority].

(** Present, a string, and not empty once trimmed. *)
Definition nonblank_string (v : value) : bool :=
  match v with
  | VString s => negb (String.eqb (trim s) "")
  | _ => false
  end.

Definition is_boolean (v : value) : bool :=
  match v with VBool _ => true | _ => false end.

Definition rule_holds (r : rule) (body : Body) : bool :=
  match r with
  | RTitle => nonblank_string (body_title body)
  | RDescription => nonblank_string (body_description body)
  | RCompleted => is_boolean (body_completed body)
  | RPriority =>
      match body_priority body with
      | VUndefined => true
      | VString p => existsb (String.eqb p) ["low"; "medium"; "high"]
      | _ => false
      end
  end.

Definition rule_message (r : rule) : string :=
  match r with
  | RTitle => "title is required and must be a non-empty string"
  | RDescription => "description is required and must be a non-empty string"
  | RCompleted => "completed is required and must be a boolean"
  | RPriority => "priority must be one of: low, medium, high"
  end.

Definition first_failure (body : Body) : option rule :=
  List.find (fun r => negb (rule_holds r body)) rule_order.

(** ** The requests that change the store *)

Inductive request : Type :=
  | Post (now : string) (body : Body)
  | Put (now : string) (id_param : string) (body : Body)
  | Del (id_param : string).

Definition serve (r : request) (tasks : list Task) : list Task :=
  match r with
  | Post now body => fst (post_tasks now body tasks)
  | Put now id_param body => fst (put_tasks_id now id_param body tasks)
  | Del id_param => fst (delete_tasks_id id_param tasks)
  end.

Definition serve_all (rs : list request) (tasks : list Task) : list Task :=
  fold_left (fun ts r => serve r ts) rs tasks.

(** The clock never reads as the empty text. *)
Definition clock_reads (r : request) : Prop :=
  match r with
  | Post now _ | Put now _ _ => now <> ""
  | Del _ => True
  end.

(** ** The queries as the specification words them *)

(** The task's completed field equals the boolean [b]. *)
Definition completed_is (b : bool) (t : Task) : bool :=
  match task_completed t with
  | VBool c => Bool.eqb c b
  | _ => false
  end.

(** The parameter is the literal string "true". *)
Definition is_literal_true (v : value) : bool :=
  match v with
  | VString s => String.eqb s "true"
  | _ => false
  end.

(** The tasks GET /tasks selects before it sorts them. *)
Definition selected (query : Query) (tasks : list Task) : list Task :=
  match query_completed query with
  | VUndefined => tasks
  | v => List.filter (completed_is (is_literal_true v)) tasks
  end.

Definition same_ignoring_case (a b : string) : bool :=
  String.eqb (toLowerCase a) (toLowerCase b).

(** The priority a task counts with: its priority text, "medium" when
    the task has none (the field is missing, null, false, 0 or the
    empty text), and nothing when the field holds another value that is
    no text. *)
Definition priority_or_medium (t : Task) : option string :=
  match task_priority t with
  | VUndefined | VNull | VBool false => Some "medium"
  | VNumber n => if n =? 0 then Some "medium" else None
  | VString EmptyString => Some "medium"
  | VString p => Some p
  | VBool true | VObject => None
  end.

(** The task's priority, "medium" when it has none, is [level] up to
    case. *)
Definition has_priority (level : string) (t : Task) : bool :=
  match priority_or_medium t with
  | Some p => same_ignoring_case p level
  | None => false
  end.

(** ** Stores with room for more creates *)

Definition two53 : Z := 9007199254740992.

(** A number of tasks well inside every argument limit seen. *)
Definition spread_safe : Z := 100000.

(** [k] more creates go through and stay exact: no id is below -2^53,
    every id leaves room for [k] increments up to 2^53, and the store
    with [k] more tasks has at most [spread_safe] of them. *)
Definition room_for (k : Z) (tasks : list Task) : Prop :=
  k <= two53
  /\ Z.of_nat (length tasks) + k <= spread_safe
  /\ Forall (fun t => - two53 <= task_id t /\ task_id t + k <= two53) tasks.

(** [m] is the largest id of the store, 0 for the empty store. *)
Definition largest_id (tasks : list Task) (m : Z) : Prop :=
  match tasks with
  | [] => m = 0
  | _ => (exists u, u ∈ tasks /\ task_id u = m)
         /\ forall v, v ∈ tasks -> task_id v <= m
  end.

Section Ordering.

Variable Date_parse : string -> option Z.

(** The time value of a task's createdAt, epoch zero when it has none;
    [None] when the date is invalid. *)
Definition time_value (t : Task) : option Z :=
  new_Date Date_parse (or_else (task_createdAt t) (VNumber 0)).

(** The same with epoch zero for an invalid date too. *)
Definition timestamp (t : Task) : Z := default 0 (time_value t).

Definition is_oldest (query : Query) : bool :=
  strict_equals (query_sort query) (VString "oldest").

(** [a] may stand before [b]: older first when [oldest], newer first
    otherwise. *)
Definition in_order (oldest : bool) (a b : Task) : Prop :=
  if oldest then timestamp a < timestamp b else timestamp b < timestamp a.

(** The response of GET /tasks lists its tasks in order of timestamp. *)
Definition ordered_by_createdAt (query : Query) (tasks : list Task) : Prop :=
  exists l, json (get_tasks Date_parse query tasks) = JTasks l
            /\ StronglySorted (in_order (is_oldest query)) l.

End Ordering.

(** ** Records as POST and PUT write them *)

(** Title and description are strings with more than white space,
    completed is a boolean and priority one of the three levels. *)
Definition well_formed (t : Task) : bool :=
  nonblank_string (task_title t)
  && nonblank_string (task_description t)
  && is_boolean (task_completed t)
  && includes validPriorities (task_priority t).

(** * Properties *)

(** ** Examples *)

Example Date_parse_iso_epoch :
  Date_parse_iso "1970-01-01T00:00:00.000Z" = Some 0.
Proof. reflexivity. Qed.

Example Date_parse_iso_readme :
  Date_parse_iso "2025-12-28T16:30:59.889Z" = Some 1766939459889.
Proof. reflexivity. Qed.

Example Date_parse_iso_garbage : Date_parse_iso "yesterday" = None.
Proof. reflexivity. Qed.

Example decimal_16 : decimal 16 = "16".
Proof. reflexivity. Qed.

Example decimal_neg : decimal (-305) = "-305".
Proof. reflexivity. Qed.

Example parseInt_examples :
  parseInt "42" = Some 42 /\ parseInt "  -7xyz" = Some (-7)
  /\ parseInt "0x1F" = Some 31 /\ parseInt "abc" = None
  /\ parseInt "" = None /\ parseInt "0x" = None /\ parseInt "12.9" = Some 12.
Proof. repeat split; reflexivity. Qed.

Example to_double_examples :
  to_double 9007199254740992 = 9007199254740992
  /\ to_double 9007199254740993 = 9007199254740992
  /\ to_double 9007199254740995 = 9007199254740996
  /\ to_double (-9007199254740993) = -9007199254740992
  /\ to_double 18014398509481983 = 18014398509481984
  /\ parseInt "9007199254740993" = Some 9007199254740992.
Proof. repeat split; reflexivity. Qed.

(** ** Strings *)

Lemma string_eqb_empty (s : string) :
  String.eqb s "" = (Z.of_nat (String.length s) =? 0).
Proof. destruct s; reflexivity. Qed.

Lemma trimEnd_empty (s : string) :
  String.eqb (trimEnd s) "" = all_white_space s.
Proof.
  induction s as [|c s IH]; [reflexivity|].
  cbn [trimEnd all_white_space].
  destruct (trimEnd s) eqn:E.
  - rewrite <- IH. destruct (is_white_space c); reflexivity.
  - rewrite <- IH. cbn. now rewrite andb_false_r.
Qed.

(** A string trims to nothing exactly when it is white space only. *)
Lemma trim_empty (s : string) :
  String.eqb (trim s) "" = all_white_space s.
Proof.
  unfold trim. rewrite trimEnd_empty.
  induction s as [|c s IH]; [reflexivity|].
  cbn [trimStart all_white_space].
  destruct (is_white_space c) eqn:E; [exact IH|].
  cbn [all_white_space]. now rewrite E.
Qed.

(** ** Validation *)

Lemma title_check (v : value) :
  negb (truthy v) || not_nonempty_string v = negb (nonblank_string v).
Proof.
  destruct v as [| |b|n|s|]; cbn; try reflexivity.
  - now destruct b.
  - now rewrite orb_true_r.
  - rewrite !negb_involutive, <- string_eqb_empty.
    destruct (String.eqb s "") eqn:E; [|reflexivity].
    apply String.eqb_eq in E. now subst.
Qed.

Lemma completed_check (v : value) :
  is_undefined v || negb (String.eqb (typeof v) "boolean") = negb (is_boolean v).
Proof. now destruct v. Qed.

Lemma validateTask_first_failure (body : Body) :
  validateTask body true =
  match first_failure body with
  | Some r => Invalid (rule_message r)
  | None => Valid
  end.
Proof.
  unfold validateTask, first_failure, rule_order.
  rewrite !title_check, completed_check. cbn [List.find rule_holds].
  destruct (nonblank_string (body_title body)); cbn [negb]; [|reflexivity].
  destruct (nonblank_string (body_description body)); cbn [negb]; [|reflexivity].
  destruct (is_boolean (body_completed body)); cbn [negb]; [|reflexivity].
  destruct (body_priority body) as [| |b|n|p|]; cbn; try reflexivity.
  now destruct (_ || _).
Qed.

(** C3: strict validation applies the rules in the order title,
    description, completed, priority and answers with the message of the
    first rule that fails, and POST /tasks answers 400 with that message
    and leaves the store alone; in particular a body with a valid title
    and description whose completed is the string "true" gets 400
    "completed is required and must be a boolean" and no task is
    created. *)
Theorem C3_first_failing_rule (now : string) (body : Body) (tasks : list Task) :
  validateTask body true =
    match first_failure body with
    | Some r => Invalid (rule_message r)
    | None => Valid
    end
  /\ (forall r, first_failure body = Some r ->
        post_tasks now body tasks =
          (tasks, {| status := 400; json := JError (rule_message r) |}))
  /\ (rule_holds RTitle body = true ->
      rule_holds RDescription body = true ->
      body_completed body = VString "true" ->
      post_tasks now body tasks =
        (tasks, {| status := 400;
                   json := JError "completed is required and must be a boolean" |})).
Proof.
  split; [apply validateTask_first_failure|]. split.
  - intros r Hr. unfold post_tasks.
    now rewrite validateTask_first_failure, Hr.
  - intros Ht Hd Hc. unfold post_tasks.
    rewrite validateTask_first_failure. unfold first_failure, rule_order.
    cbn [List.find]. rewrite Ht, Hd. cbn [negb rule_holds].
    now rewrite Hc.
Qed.

Lemma C3_first_failing_rule_witness :
  post_tasks "2025-12-28T16:30:59.889Z"
    (mkBody VUndefined (VString "A") (VString "B") (VString "true")
       VUndefined VUndefined) []
  = ([], {| status := 400;
            json := JError "completed is required and must be a boolean" |}).
Proof.
  apply (C3_first_failing_rule "2025-12-28T16:30:59.889Z"
           (mkBody VUndefined (VString "A") (VString "B") (VString "true")
              VUndefined VUndefined) []); reflexivity.
Defined.

(** ** Looking a task up by id *)

Lemma findIndex_None {A : Type} (p : A -> bool) (l : list A) :
  findIndex p l = None <-> forall x, x ∈ l -> p x = false.
Proof.
  induction l as [|y l IH]; cbn.
  - split; [|reflexivity]. intros _ x Hx. inversion Hx.
  - destruct (p y) eqn:E.
    + split; [discriminate|]. intros H. specialize (H y (list_elem_of_here _ _)).
      congruence.
    + destruct (findIndex p l) eqn:F; cbn.
      * split; [discriminate|]. intros H.
        assert (Some n = None) by (apply IH; intros x Hx; apply H; now right).
        discriminate.
      * split; [|reflexivity]. intros _ x Hx.
        apply elem_of_cons in Hx as [->|Hx]; [exact E|]. now apply IH.
Qed.

Lemma findIndex_Some {A : Type} (p : A -> bool) (l : list A) (i : nat) :
  findIndex p l = Some i ->
  exists x, l !! i = Some x /\ p x = true
            /\ forall j y, (j < i)%nat -> l !! j = Some y -> p y = false.
Proof.
  revert i. induction l as [|y l IH]; cbn; [discriminate|]. intros i.
  destruct (p y) eqn:E.
  - intros [= <-]. exists y. repeat split; [exact E|]. intros j z Hj. lia.
  - destruct (findIndex p l) as [k|]; cbn; [|discriminate].
    intros [= <-]. destruct (IH k eq_refl) as (x & Hx & Hp & Hlt).
    exists x. repeat split; [exact Hx|exact Hp|].
    intros [|j] z Hj; cbn.
    + now intros [= <-].
    + apply Hlt. lia.
Qed.

Lemma find_None_findIndex {A : Type} (p : A -> bool) (l : list A) :
  findIndex p l = None -> List.find p l = None.
Proof.
  induction l as [|y l IH]; cbn; [reflexivity|].
  destruct (p y); [discriminate|].
  destruct (findIndex p l); [discriminate|]. intros _. now apply IH.
Qed.

Lemma id_is_false (r : option Z) (t : Task) :
  r <> Some (task_id t) -> id_is r t = false.
Proof.
  destruct r as [n|]; cbn; [|reflexivity]. intros H.
  apply Z.eqb_neq. congruence.
Qed.

Lemma id_is_true (r : option Z) (t : Task) :
  id_is r t = true <-> r = Some (task_id t).
Proof.
  destruct r as [n|]; cbn; [|split; discriminate].
  rewrite Z.eqb_eq. split; congruence.
Qed.

Lemma no_task_with_id (id_param : string) (tasks : list Task) :
  (forall t, t ∈ tasks -> parseInt id_param <> Some (task_id t)) ->
  findIndex (id_is (parseInt id_param)) tasks = None.
Proof.
  intros H. apply findIndex_None. intros t Ht. now apply id_is_false, H.
Qed.

Lemma task_with_id (id_param : string) (tasks : list Task) (t : Task) :
  t ∈ tasks -> parseInt id_param = Some (task_id t) ->
  exists i, findIndex (id_is (parseInt id_param)) tasks = Some i.
Proof.
  intros Ht Hp. destruct (findIndex _ tasks) as [i|] eqn:F; [now exists i|].
  rewrite findIndex_None in F. specialize (F t Ht).
  rewrite Hp in F. cbn in F. rewrite Z.eqb_refl in F. discriminate.
Qed.

(** C9: when the parsed id path segment equals the id of no stored task,
    which includes every segment that parses to NaN, GET, PUT (whatever
    the body) and DELETE on /tasks/:id all answer 404 with
    {error: "Task not found"} and the store stays as it was. *)
Theorem C9_unknown_id_is_404 (now id_param : string) (body : Body)
  (tasks : list Task) :
  (forall t, t ∈ tasks -> parseInt id_param <> Some (task_id t)) ->
  get_tasks_id id_param tasks
    = {| status := 404; json := JError "Task not found" |}
  /\ put_tasks_id now id_param body tasks
    = (tasks, {| status := 404; json := JError "Task not found" |})
  /\ delete_tasks_id id_param tasks
    = (tasks, {| status := 404; json := JError "Task not found" |}).
Proof.
  intros H. apply no_task_with_id in H.
  unfold get_tasks_id, put_tasks_id, delete_tasks_id.
  rewrite (find_None_findIndex _ _ H), H. auto.
Qed.

(** A segment that parses to NaN names no task. *)
Lemma NaN_names_no_task (id_param : string) (tasks : list Task) :
  parseInt id_param = None ->
  forall t, t ∈ tasks -> parseInt id_param <> Some (task_id t).
Proof. intros -> t _. discriminate. Qed.

Lemma C9_unknown_id_is_404_witness :
  let store := [mkTask 1 (VString "A") (VString "B") (VBool false)
                  (VString "medium") (VString "2025-12-28T16:30:59.889Z")] in
  let body := mkBody VUndefined VUndefined VUndefined VUndefined
                VUndefined VUndefined in
  get_tasks_id "abc" store = not_found
  /\ put_tasks_id "2026-01-01T00:00:00.000Z" "abc" body store = (store, not_found)
  /\ delete_tasks_id "abc" store = (store, not_found).
Proof.
  intros store body.
  apply (C9_unknown_id_is_404 "2026-01-01T00:00:00.000Z" "abc" body store).
  apply NaN_names_no_task. reflexivity.
Defined.

Lemma parseInt_no_leading_digit (c : ascii) (s : string) :
  is_white_space c = false -> c <> "-"%char -> c <> "+"%char ->
  digit_in 10 c = None ->
  parseInt (String c s) = None.
Proof.
  intros Hw Hm Hp Hd. unfold parseInt. cbn [trimStart]. rewrite Hw.
  assert (Hs : strip_sign (String c s) = (1, String c s)).
  { destruct c as [[] [] [] [] [] [] [] []]; try reflexivity; congruence. }
  rewrite Hs.
  assert (Hx : strip_hex_prefix (String c s) = (10, String c s)).
  { destruct c as [[] [] [] [] [] [] [] []]; try reflexivity; discriminate Hd. }
  rewrite Hx. cbn [read_digits]. now rewrite Hd.
Qed.

(** ** PUT /tasks/:id *)

Lemma put_found (id_param : string) (tasks : list Task) (i : nat) :
  findIndex (id_is (parseInt id_param)) tasks = Some i ->
  exists x, tasks !! i = Some x /\ parseInt id_param = Some (task_id x).
Proof.
  intros F. destruct (findIndex_Some _ _ _ F) as (x & Hx & Hp & _).
  exists x. split; [exact Hx|]. now apply id_is_true.
Qed.

Lemma same_id_same_task (tasks : list Task) (x y : Task) :
  NoDup (map task_id tasks) -> x ∈ tasks -> y ∈ tasks ->
  task_id x = task_id y -> x = y.
Proof.
  induction tasks as [|z l IH]; cbn; intros Hnd Hx Hy E.
  - inversion Hx.
  - apply NoDup_cons in Hnd as [Hz Hnd].
    apply elem_of_cons in Hx as [->|Hx]; apply elem_of_cons in Hy as [->|Hy].
    + reflexivity.
    + exfalso. apply Hz. rewrite E. now apply (list_elem_of_fmap_2 task_id).
    + exfalso. apply Hz. rewrite <- E. now apply (list_elem_of_fmap_2 task_id).
    + now apply IH.
Qed.

(** C7: PUT /tasks/:id answers 404 when no task has that id, whatever
    the body, valid or not; it answers 400 with the validation message
    when the task exists and the body fails strict validation; the store
    is the same afterwards in both cases. *)
Theorem C7_put_failures (now id_param : string) (body : Body)
  (tasks : list Task) :
  ((forall t, t ∈ tasks -> parseInt id_param <> Some (task_id t)) ->
   put_tasks_id now id_param body tasks
     = (tasks, {| status := 404; json := JError "Task not found" |}))
  /\ (forall t message,
        t ∈ tasks -> parseInt id_param = Some (task_id t) ->
        validateTask body true = Invalid message ->
        put_tasks_id now id_param body tasks
          = (tasks, {| status := 400; json := JError message |})).
Proof.
  split.
  - intros H. unfold put_tasks_id. now rewrite (no_task_with_id _ _ H).
  - intros t message Ht Hp Hv.
    destruct (task_with_id _ _ _ Ht Hp) as [i F].
    unfold put_tasks_id. rewrite F, Hp, Hv. reflexivity.
Qed.

Lemma C7_put_failures_witness :
  let store := [mkTask 1 (VString "A") (VString "B") (VBool false)
                  (VString "medium") (VString "2025-12-28T16:30:59.889Z")] in
  let bad := mkBody VUndefined (VString "  ") (VString "B") (VBool true)
               VUndefined VUndefined in
  put_tasks_id "2026-01-01T00:00:00.000Z" "999" bad store = (store, not_found)
  /\ put_tasks_id "2026-01-01T00:00:00.000Z" "1" bad store
     = (store, {| status := 400;
                  json := JError "title is required and must be a non-empty string" |}).
Proof.
  intros store bad. split.
  - apply (C7_put_failures "2026-01-01T00:00:00.000Z" "999" bad store).
    intros t Ht. apply list_elem_of_singleton in Ht as ->. vm_compute. discriminate.
  - apply (proj2 (C7_put_failures "2026-01-01T00:00:00.000Z" "1" bad store)
             (mkTask 1 (VString "A") (VString "B") (VBool false)
                (VString "medium") (VString "2025-12-28T16:30:59.889Z"))).
    + apply list_elem_of_here.
    + reflexivity.
    + reflexivity.
Defined.

Lemma valid_priority (body : Body) :
  validateTask body true = Valid ->
  body_priority body = VUndefined
  \/ (truthy (body_priority body) = true
      /\ exists p, body_priority body = VString p /\ In p validPriorities).
Proof.
  rewrite validateTask_first_failure. unfold first_failure, rule_order.
  cbn [List.find].
  destruct (rule_holds RTitle body); cbn [negb]; [|discriminate].
  destruct (rule_holds RDescription body); cbn [negb]; [|discriminate].
  destruct (rule_holds RCompleted body); cbn [negb]; [|discriminate].
  destruct (rule_holds RPriority body) eqn:E; cbn [negb]; [|discriminate].
  intros _. cbn in E.
  destruct (body_priority body) as [| |b|n|p|]; try discriminate; [now left|].
  right. rewrite !orb_true_iff, !String.eqb_eq in E.
  destruct E as [->|[->|[->|E]]]; try discriminate E;
    (split; [reflexivity|]); eexists; (split; [reflexivity|]); cbn; auto.
Qed.

(** C6: a successful PUT /tasks/:id on the existing task t writes, at
    t's place, a record with t's id and createdAt, the body's title,
    description and completed, and the body's priority when the body
    has one and t's priority otherwise; every other place of the store
    keeps its task. The store has unique ids and t carries the truthy
    priority and createdAt that start-up and create give every task. *)
Theorem C6_put_replaces_one_record (now id_param : string) (body : Body)
  (tasks : list Task) (t : Task) :
  NoDup (map task_id tasks) ->
  t ∈ tasks ->
  backfilled t = true ->
  parseInt id_param = Some (task_id t) ->
  validateTask body true = Valid ->
  exists i updated,
    tasks !! i = Some t
    /\ put_tasks_id now id_param body tasks
       = (<[i := updated]> tasks, {| status := 200; json := JTask updated |})
    /\ task_id updated = task_id t
    /\ task_createdAt updated = task_createdAt t
    /\ task_title updated = body_title body
    /\ task_description updated = body_description body
    /\ task_completed updated = body_completed body
    /\ task_priority updated
       = (if is_undefined (body_priority body) then task_priority t
          else body_priority body)
    /\ (<[i := updated]> tasks) !! i = Some updated
    /\ length (<[i := updated]> tasks) = length tasks
    /\ (forall j, j <> i -> (<[i := updated]> tasks) !! j = tasks !! j).
Proof.
  intros Hnd Ht Hb Hp Hv.
  destruct (task_with_id _ _ _ Ht Hp) as [i F].
  destruct (put_found _ _ _ F) as (x & Hx & Hpx).
  assert (x = t) as ->.
  { apply (same_id_same_task tasks); auto.
    - apply list_elem_of_lookup. now exists i.
    - congruence. }
  unfold backfilled in Hb. apply andb_true_iff in Hb as [Hpr Hcr].
  unfold put_tasks_id. rewrite F, Hp, Hv, Hx.
  eexists i, _. split; [exact Hx|]. split; [reflexivity|]. cbn.
  repeat split.
  - unfold or_else. now rewrite Hcr.
  - destruct (valid_priority _ Hv) as [->|(Htr & _)]; cbn.
    + unfold or_else at 1. cbn. unfold or_else. now rewrite Hpr.
    + unfold or_else at 1. rewrite Htr.
      destruct (body_priority body); try reflexivity. discriminate Htr.
  - apply list_lookup_insert_eq. now apply lookup_lt_Some in Hx.
  - apply length_insert.
  - intros j Hj. now apply list_lookup_insert_ne.
Qed.

Lemma C6_put_replaces_one_record_witness :
  let t := mkTask 1 (VString "A") (VString "B") (VBool false)
             (VString "high") (VString "2025-12-28T16:30:59.889Z") in
  let body := mkBody VUndefined (VString "C") (VString "D") (VBool true)
                VUndefined VUndefined in
  exists i updated,
    [t] !! i = Some t
    /\ put_tasks_id "2026-01-01T00:00:00.000Z" "1" body [t]
       = (<[i := updated]> [t], {| status := 200; json := JTask updated |})
    /\ task_id updated = 1
    /\ task_createdAt updated = VString "2025-12-28T16:30:59.889Z"
    /\ task_title updated = VString "C"
    /\ task_description updated = VString "D"
    /\ task_completed updated = VBool true
    /\ task_priority updated = VString "high"
    /\ (<[i := updated]> [t]) !! i = Some updated
    /\ length (<[i := updated]> [t]) = length [t]
    /\ (forall j, j <> i -> (<[i := updated]> [t]) !! j = [t] !! j).
Proof.
  intros t body.
  apply (C6_put_replaces_one_record "2026-01-01T00:00:00.000Z" "1" body [t] t).
  - apply NoDup_singleton.
  - apply list_elem_of_here.
  - reflexivity.
  - reflexivity.
  - reflexivity.
Defined.

(** ** POST /tasks *)

Lemma Math_max_ge (xs : list Z) (x : Z) :
  x <= Math_max x xs /\ forall y, y ∈ xs -> y <= Math_max x xs.
Proof.
  unfold Math_max. revert x. induction xs as [|z xs IH]; intros x; cbn.
  - split; [lia|]. intros y Hy. inversion Hy.
  - destruct (IH (Z.max x z)) as [H1 H2]. split; [lia|].
    intros y Hy. apply elem_of_cons in Hy as [->|Hy]; [lia|]. now apply H2.
Qed.

(** No stored id is above [maxId]. *)
Lemma maxId_ge (tasks : list Task) (t : Task) :
  t ∈ tasks -> task_id t <= maxId tasks.
Proof.
  unfold maxId. destruct tasks as [|u l]; cbn; intros Ht.
  - inversion Ht.
  - destruct (Math_max_ge (map task_id l) (task_id u)) as [H1 H2].
    apply elem_of_cons in Ht as [->|Ht]; [exact H1|].
    apply H2. now apply (list_elem_of_fmap_2 task_id).
Qed.

Lemma Math_max_in (xs : list Z) (x : Z) :
  Math_max x xs = x \/ Math_max x xs ∈ xs.
Proof.
  unfold Math_max. revert x. induction xs as [|z xs IH]; intros x; cbn.
  - now left.
  - destruct (IH (Z.max x z)) as [E|Hin].
    + rewrite E. destruct (Z.max_spec x z) as [[_ ->]|[_ ->]].
      * right. apply list_elem_of_here.
      * now left.
    + right. now right.
Qed.

(** [maxId] is the largest id of the store, 0 for the empty store. *)
Lemma maxId_largest (tasks : list Task) : largest_id tasks (maxId tasks).
Proof.
  destruct tasks as [|u l]; [reflexivity|]. split.
  - unfold maxId. cbn [map].
    destruct (Math_max_in (map task_id l) (task_id u)) as [E|Hin].
    + exists u. split; [apply list_elem_of_here|now rewrite E].
    + apply (list_elem_of_fmap_1 task_id) in Hin as (v & Hv & Hin).
      exists v. split; [now right|now rewrite Hv].
  - intros v Hv. now apply maxId_ge.
Qed.

Lemma largest_id_maxId (tasks : list Task) (m : Z) :
  largest_id tasks m -> m = maxId tasks.
Proof.
  intros Hm. pose proof (maxId_largest tasks) as Hx.
  destruct tasks as [|u l]; [exact Hm|].
  destruct Hm as [(a & Ha & Ea) Hm], Hx as [(b & Hb & Eb) Hx].
  pose proof (Hm b Hb). pose proof (Hx a Ha). lia.
Qed.

(** Up to magnitude 2^53 every integer is a double. *)
Lemma to_double_exact (z : Z) :
  - two53 <= z <= two53 -> to_double z = z.
Proof.
  intros Hz. unfold to_double.
  destruct (Z.log2 (Z.abs z) <? 53) eqn:E; [reflexivity|].
  apply Z.ltb_ge in E.
  assert (Ha : 0 < Z.abs z).
  { destruct (Z.eq_dec (Z.abs z) 0) as [Hz0|]; [|lia].
    rewrite Hz0 in E. cbn in E. lia. }
  apply Z.log2_le_pow2 in E; [|exact Ha].
  change (2 ^ 53) with two53 in E.
  assert (Hc : z = two53 \/ z = - two53) by lia.
  destruct Hc as [-> | ->]; reflexivity.
Qed.

Lemma room_maxId (k : Z) (tasks : list Task) :
  1 <= k -> room_for k tasks ->
  - two53 <= maxId tasks /\ maxId tasks + k <= two53.
Proof.
  intros Hk (Hroom & _ & Hall). pose proof (maxId_largest tasks) as Hm.
  destruct tasks as [|u l]; [cbn in *; unfold two53 in *; lia|].
  destruct Hm as [(v & Hv & <-) _].
  rewrite Forall_forall in Hall. now apply Hall.
Qed.

(** With room for one more create the new id is exactly [maxId + 1]. *)
Lemma new_id_exact (k : Z) (tasks : list Task) :
  1 <= k -> room_for k tasks ->
  to_double (maxId tasks + 1) = maxId tasks + 1.
Proof.
  intros Hk Hr. destruct (room_maxId k tasks Hk Hr).
  apply to_double_exact. lia.
Qed.

Lemma post_valid (now : string) (body : Body) (tasks : list Task) :
  Z.of_nat (length tasks) <= argument_limit ->
  validateTask body true = Valid ->
  let newTask :=
    {| task_id := to_double (maxId tasks + 1);
       task_title := body_title body;
       task_description := body_description body;
       task_completed := body_completed body;
       task_priority := or_else (body_priority body) (VString "medium");
       task_createdAt := VString now |} in
  post_tasks now body tasks
    = ((tasks ++ [newTask])%list, {| status := 201; json := JTask newTask |}).
Proof.
  intros Hl Hv. unfold post_tasks. rewrite Hv.
  apply Z.ltb_ge in Hl. now rewrite Hl.
Qed.

Lemma room_length (k : Z) (tasks : list Task) :
  1 <= k -> room_for k tasks -> Z.of_nat (length tasks) <= argument_limit.
Proof.
  intros Hk (_ & Hl & _). unfold spread_safe, argument_limit in *. lia.
Qed.

(** A store longer than the argument limit takes no create. *)
Lemma post_over_limit (now : string) (body : Body) (tasks : list Task) :
  argument_limit < Z.of_nat (length tasks) ->
  validateTask body true = Valid ->
  post_tasks now body tasks
    = (tasks, {| status := 500; json := JServerError |}).
Proof.
  intros Hl Hv. unfold post_tasks. rewrite Hv.
  apply Z.ltb_lt in Hl. now rewrite Hl.
Qed.


(** ** What every store of the service satisfies *)

Lemma string_truthy (s : string) : s <> "" -> truthy (VString s) = true.
Proof.
  intros H. cbn. apply negb_true_iff, String.eqb_neq. exact H.
Qed.

Lemma or_else_l (v w : value) : truthy v = true -> or_else v w = v.
Proof. intros H. unfold or_else. now rewrite H. Qed.

Lemma or_else_r (v w : value) : truthy v = false -> or_else v w = w.
Proof. intros H. unfold or_else. now rewrite H. Qed.

Lemma or_else_truthy (v w : value) :
  truthy w = true -> truthy (or_else v w) = true.
Proof. intros H. unfold or_else. now destruct (truthy v) eqn:E. Qed.

Lemma backfill_backfilled (now : string) (t : Task) :
  now <> "" -> backfilled (backfill now t) = true.
Proof.
  intros H. unfold backfilled, backfill. cbn.
  rewrite !or_else_truthy; auto using string_truthy.
Qed.

(** Start-up leaves no task without priority or createdAt. *)
Lemma initial_tasks_backfilled (clock : nat -> string)
  (file : option (list Task)) :
  (forall i, clock i <> "") ->
  Forall (fun t => backfilled t = true) (initial_tasks clock file).
Proof.
  intros Hc. destruct file as [l|]; cbn; [|constructor].
  revert clock Hc. induction l as [|t l IH]; intros clock Hc; cbn.
  - constructor.
  - constructor; [now apply backfill_backfilled|].
    apply (IH (fun i => clock (S i))). intros i. apply Hc.
Qed.

Lemma initial_tasks_priority_is_text (clock : nat -> string)
  (file : list Task) :
  Forall (fun t => priority_is_text t = true) file ->
  Forall (fun t => priority_is_text t = true)
    (initial_tasks clock (Some file)).
Proof.
  cbn. revert clock. induction file as [|t l IH]; intros clock H; cbn.
  - constructor.
  - apply Forall_cons in H as [Ht Hl]. constructor.
    + unfold priority_is_text in *. cbn [backfill task_priority].
      unfold or_else at 1.
      now destruct (truthy (or_else (task_priority t) (VString "medium"))).
    + now apply (IH (fun i => clock (S i))).
Qed.

Lemma post_backfilled (now : string) (body : Body) (tasks : list Task) :
  now <> "" ->
  Forall (fun t => backfilled t = true) tasks ->
  Forall (fun t => backfilled t = true) (fst (post_tasks now body tasks)).
Proof.
  intros Hn H. unfold post_tasks.
  destruct (validateTask body true); [|exact H].
  destruct (argument_limit <? Z.of_nat (length tasks)); cbn [fst]; [exact H|].
  apply Forall_app. split; [exact H|]. constructor; [|constructor].
  unfold backfilled. cbn [task_priority task_createdAt].
  rewrite or_else_truthy by reflexivity. now rewrite string_truthy.
Qed.

Lemma put_backfilled (now id_param : string) (body : Body)
  (tasks : list Task) :
  now <> "" ->
  Forall (fun t => backfilled t = true) tasks ->
  Forall (fun t => backfilled t = true)
    (fst (put_tasks_id now id_param body tasks)).
Proof.
  intros Hn H. unfold put_tasks_id.
  destruct (findIndex _ tasks) as [i|]; [|exact H].
  destruct (parseInt id_param) as [n|]; [|exact H].
  destruct (validateTask body true); [|exact H].
  destruct (tasks !! i) as [x|]; [|exact H]. cbn [fst].
  apply Forall_insert; [exact H|].
  unfold backfilled. cbn [task_priority task_createdAt].
  rewrite !or_else_truthy; auto using string_truthy, or_else_truthy.
Qed.

Lemma delete_keeps (P : Task -> Prop) (id_param : string)
  (tasks : list Task) :
  Forall P tasks -> Forall P (fst (delete_tasks_id id_param tasks)).
Proof.
  intros H. unfold delete_tasks_id.
  destruct (findIndex _ tasks) as [i|]; [|exact H]. cbn [fst].
  now apply Forall_delete.
Qed.

Lemma post_priority_is_text (now : string) (body : Body)
  (tasks : list Task) :
  Forall (fun t => priority_is_text t = true) tasks ->
  Forall (fun t => priority_is_text t = true)
    (fst (post_tasks now body tasks)).
Proof.
  intros H. unfold post_tasks.
  destruct (validateTask body true) eqn:Hv; [|exact H].
  destruct (argument_limit <? Z.of_nat (length tasks)); cbn [fst]; [exact H|].
  apply Forall_app. split; [exact H|]. constructor; [|constructor].
  unfold priority_is_text. cbn [task_priority].
  destruct (valid_priority _ Hv) as [->|(Ht & p & Hp & _)]; [reflexivity|].
  unfold or_else at 2. rewrite Ht, Hp.
  unfold or_else. rewrite <- Hp, Ht, Hp. reflexivity.
Qed.

Lemma put_priority_is_text (now id_param : string) (body : Body)
  (tasks : list Task) :
  Forall (fun t => priority_is_text t = true) tasks ->
  Forall (fun t => priority_is_text t = true)
    (fst (put_tasks_id now id_param body tasks)).
Proof.
  intros H. unfold put_tasks_id.
  destruct (findIndex _ tasks) as [i|]; [|exact H].
  destruct (parseInt id_param) as [n|]; [|exact H].
  destruct (validateTask body true) eqn:Hv; [|exact H].
  destruct (tasks !! i) as [x|] eqn:Hx; [|exact H]. cbn [fst].
  apply Forall_insert; [exact H|].
  assert (Hxt : priority_is_text x = true).
  { rewrite Forall_forall in H. apply H, list_elem_of_lookup. now exists i. }
  unfold priority_is_text in *. cbn [task_priority].
  assert (Hin : forall v,
    match or_else v (VString "medium") with VString _ => true | _ => false end
      = true ->
    match or_else (or_else v (VString "medium")) (VString "medium") with
    | VString _ => true | _ => false end = true).
  { intros v Hm. unfold or_else at 1.
    now destruct (truthy (or_else v (VString "medium"))). }
  destruct (valid_priority _ Hv) as [->|(Ht & p & Hp & _)].
  - rewrite (or_else_r VUndefined) by reflexivity. now apply Hin.
  - rewrite (or_else_l (body_priority body)) by exact Ht.
    rewrite or_else_l by exact Ht. now rewrite Hp.
Qed.

(** ** Unique ids *)

(** With room for one more create the new id is above every stored id. *)
Lemma new_id_above (k : Z) (tasks : list Task) (t : Task) :
  1 <= k -> room_for k tasks -> t ∈ tasks ->
  task_id t < to_double (maxId tasks + 1).
Proof.
  intros Hk Hr Ht. rewrite (new_id_exact k tasks Hk Hr).
  apply maxId_ge in Ht. lia.
Qed.

Lemma post_NoDup (now : string) (body : Body) (tasks : list Task) :
  room_for 1 tasks ->
  NoDup (map task_id tasks) ->
  NoDup (map task_id (fst (post_tasks now body tasks))).
Proof.
  intros Hr H. unfold post_tasks.
  destruct (validateTask body true); [|exact H].
  destruct (argument_limit <? Z.of_nat (length tasks)); cbn [fst]; [exact H|].
  rewrite map_app. apply NoDup_app. split; [exact H|]. split.
  - intros x Hx Hn. cbn in Hn. apply list_elem_of_singleton in Hn.
    apply (list_elem_of_fmap_1 task_id) in Hx as (t & -> & Ht).
    pose proof (new_id_above 1 tasks t ltac:(lia) Hr Ht). lia.
  - apply NoDup_singleton.
Qed.

Lemma put_ids (now id_param : string) (body : Body) (tasks : list Task) :
  map task_id (fst (put_tasks_id now id_param body tasks)) = map task_id tasks.
Proof.
  unfold put_tasks_id.
  destruct (findIndex _ tasks) as [i|] eqn:F; [|reflexivity].
  destruct (put_found _ _ _ F) as (x & Hx & Hp). rewrite Hp.
  destruct (validateTask body true); [|reflexivity].
  rewrite Hx. cbn [fst].
  change (task_id <$> <[i:=mkTask (task_id x) (body_title body)
                           (body_description body) (body_completed body)
                           (or_else (body_priority body)
                              (or_else (task_priority x) (VString "medium")))
                           (or_else (task_createdAt x) (VString now))]> tasks
          = task_id <$> tasks).
  rewrite list_fmap_insert. cbn [task_id].
  apply list_insert_id. now rewrite list_lookup_fmap, Hx.
Qed.

Lemma put_NoDup (now id_param : string) (body : Body) (tasks : list Task) :
  NoDup (map task_id tasks) ->
  NoDup (map task_id (fst (put_tasks_id now id_param body tasks))).
Proof. now rewrite put_ids. Qed.

Lemma delete_NoDup (id_param : string) (tasks : list Task) :
  NoDup (map task_id tasks) ->
  NoDup (map task_id (fst (delete_tasks_id id_param tasks))).
Proof.
  intros H. unfold delete_tasks_id.
  destruct (findIndex _ tasks) as [i|]; [|exact H]. cbn [fst].
  change (NoDup (task_id <$> delete i tasks)).
  rewrite list_fmap_delete. exact (sublist_NoDup _ _ H (sublist_delete _ i)).
Qed.

Lemma room_for_le (k k' : Z) (tasks : list Task) :
  k' <= k -> room_for k tasks -> room_for k' tasks.
Proof.
  intros Hk (Hr & Hlen & Hall). split; [lia|]. split; [lia|].
  eapply Forall_impl; [exact Hall|]. cbn beta. intros t. lia.
Qed.

Lemma room_for_ids (k : Z) (l1 l2 : list Task) :
  map task_id l1 = map task_id l2 -> room_for k l2 -> room_for k l1.
Proof.
  intros E (Hr & Hlen & Hall). split; [exact Hr|]. split.
  { rewrite <- (length_map task_id l1), E, length_map. exact Hlen. }
  apply (Forall_fmap task_id
           (fun n => - two53 <= n /\ n + k <= two53)).
  change (task_id <$> l1) with (map task_id l1). rewrite E.
  now apply (Forall_fmap task_id
               (fun n => - two53 <= n /\ n + k <= two53)).
Qed.

(** A create uses up one place of the room, nothing else does. *)
Lemma post_room (now : string) (body : Body) (tasks : list Task) (k : Z) :
  1 <= k -> room_for k tasks ->
  room_for (k - 1) (fst (post_tasks now body tasks)).
Proof.
  intros Hk Hr. unfold post_tasks.
  destruct (validateTask body true);
    [|apply (room_for_le k); [lia|exact Hr]].
  destruct (argument_limit <? Z.of_nat (length tasks)); cbn [fst];
    [apply (room_for_le k); [lia|exact Hr]|].
  destruct (room_maxId k tasks Hk Hr) as [Hlo Hhi].
  pose proof (new_id_exact k tasks Hk Hr) as Hid.
  destruct Hr as (Hr & Hlen & Hall).
  split; [lia|]. split.
  - rewrite length_app, Nat2Z.inj_add. cbn [length]. lia.
  - apply Forall_app. split.
    + eapply Forall_impl; [exact Hall|]. cbn beta. intros t. lia.
    + constructor; [|constructor]. cbn [task_id]. rewrite Hid. lia.
Qed.

Lemma put_room (now id_param : string) (body : Body) (tasks : list Task)
  (k : Z) :
  room_for k tasks -> room_for k (fst (put_tasks_id now id_param body tasks)).
Proof. apply room_for_ids, put_ids. Qed.

Lemma delete_room (id_param : string) (tasks : list Task) (k : Z) :
  room_for k tasks -> room_for k (fst (delete_tasks_id id_param tasks)).
Proof.
  intros (Hr & Hlen & Hall). split; [exact Hr|]. split.
  - unfold delete_tasks_id. destruct (findIndex _ tasks) as [i|];
      cbn [fst]; [|exact Hlen].
    pose proof (sublist_length _ _ (sublist_delete tasks i)). lia.
  - now apply delete_keeps.
Qed.

(** Every store the service can be in: after start-up and any requests,
    every task has a truthy priority and createdAt, and the priorities
    are strings when they were so in the start-up file. *)
Lemma serve_all_invariants (clock : nat -> string) (file : list Task)
  (rs : list request) :
  (forall i, clock i <> "") ->
  Forall clock_reads rs ->
  let store := serve_all rs (initial_tasks clock (Some file)) in
  Forall (fun t => backfilled t = true) store
  /\ (Forall (fun t => priority_is_text t = true) file ->
      Forall (fun t => priority_is_text t = true) store).
Proof.
  intros Hclock Hrs store. subst store.
  pose proof (initial_tasks_backfilled clock (Some file) Hclock) as Hb.
  pose proof (initial_tasks_priority_is_text clock file) as Ht.
  revert Hb Ht. generalize (initial_tasks clock (Some file)). clear Hclock.
  induction Hrs as [|r rs Hr _ IH]; intros tasks Hb Ht; cbn [serve_all fold_left].
  - auto.
  - apply IH.
    + destruct r; cbn [serve clock_reads] in *;
        auto using post_backfilled, put_backfilled, delete_keeps.
    + intros Hf. specialize (Ht Hf).
      destruct r; cbn [serve];
        auto using post_priority_is_text, put_priority_is_text, delete_keeps.
Qed.

(** ** Ids along a sequence of create and delete requests *)



Lemma step_room (o : op) (tasks : list Task) (k : Z) :
  1 <= k -> room_for k tasks -> room_for (k - 1) (fst (step o tasks)).
Proof.
  intros Hk Hr. destruct o as [now body|id_param]; cbn [step].
  - pose proof (post_room now body tasks k Hk Hr) as H'.
    now destruct (post_tasks now body tasks).
  - pose proof (delete_room id_param tasks k Hr) as H'.
    destruct (delete_tasks_id id_param tasks). cbn [fst] in *.
    apply (room_for_le k); [lia|exact H'].
Qed.


Lemma room_after_step (o : op) (ops : list op) (tasks : list Task) :
  room_for (Z.of_nat (length (o :: ops))) tasks ->
  room_for 1 tasks
  /\ room_for (Z.of_nat (length ops)) (fst (step o tasks)).
Proof.
  intros Hr. cbn [length] in Hr. rewrite Nat2Z.inj_succ in Hr. split.
  - apply (room_for_le (Z.succ (Z.of_nat (length ops)))); [lia|exact Hr].
  - replace (Z.of_nat (length ops))
      with (Z.succ (Z.of_nat (length ops)) - 1) by lia.
    apply step_room; [lia|exact Hr].
Qed.







(** ** Writing an id in decimal and parsing it back *)

Lemma digit_cases (d : Z) :
  0 <= d < 10 ->
  d = 0 \/ d = 1 \/ d = 2 \/ d = 3 \/ d = 4 \/ d = 5 \/ d = 6 \/ d = 7
  \/ d = 8 \/ d = 9.
Proof. lia. Qed.

Ltac each_digit d H :=
  destruct (digit_cases d H) as [->|[->|[->|[->|[->|[->|[->|[->|[->| ->]]]]]]]]].

Lemma digit_char (d : Z) :
  0 <= d < 10 ->
  let c := ascii_of_N (Z.to_N (48 + d)) in
  digit_in 10 c = Some d /\ is_decimal_char c = true.
Proof. intros H. each_digit d H; split; reflexivity. Qed.

Lemma decimal_char_plain (c : ascii) (s : string) :
  is_decimal_char c = true ->
  trimStart (String c s) = String c s
  /\ strip_sign (String c s) = (1, String c s).
Proof.
  intros H.
  destruct c as [[] [] [] [] [] [] [] []]; try discriminate H; split; reflexivity.
Qed.

Lemma decimal_string_no_prefix (s : string) :
  decimal_string s = true -> strip_hex_prefix s = (10, s).
Proof.
  destruct s as [|c1 [|c2 r]]; [reflexivity| |].
  - intros _. destruct c1 as [[] [] [] [] [] [] [] []]; reflexivity.
  - cbn [decimal_string]. intros H.
    apply andb_true_iff in H as [_ H]. apply andb_true_iff in H as [H _].
    destruct c1 as [[] [] [] [] [] [] [] []]; try reflexivity.
    destruct c2 as [[] [] [] [] [] [] [] []]; try reflexivity; discriminate H.
Qed.

Lemma decimal_digits_decimal (fuel : nat) (n : Z) (acc : string) :
  0 <= n -> decimal_string acc = true ->
  decimal_string (decimal_digits fuel n acc) = true.
Proof.
  revert n acc. induction fuel as [|fuel IH]; intros n acc Hn Hacc;
    cbn [decimal_digits].
  - cbn [decimal_string]. rewrite Hacc, andb_true_r.
    apply digit_char. apply Z.mod_pos_bound. lia.
  - assert (Hd : decimal_string
                   (String (ascii_of_N (Z.to_N (48 + n mod 10))) acc) = true).
    { cbn [decimal_string]. rewrite Hacc, andb_true_r.
      apply digit_char. apply Z.mod_pos_bound. lia. }
    destruct (n <? 10); [exact Hd|].
    apply IH; [|exact Hd]. apply Z.div_pos; lia.
Qed.

Lemma decimal_digits_head (fuel : nat) (n : Z) (acc : string) :
  exists c r, decimal_digits fuel n acc = String c r.
Proof.
  revert n acc. induction fuel as [|fuel IH]; intros n acc;
    cbn [decimal_digits]; [eauto|].
  destruct (n <? 10); [eauto|]. apply IH.
Qed.

Lemma read_decimal_digits (fuel : nat) (n : Z) (acc : string) (a : option Z) :
  0 <= n < 2 ^ (Z.of_nat fuel + 1) ->
  exists k, 0 <= k
    /\ read_digits 10 a (decimal_digits fuel n acc)
       = read_digits 10 (Some (default 0 a * 10 ^ k + n)) acc.
Proof.
  revert n acc a. induction fuel as [|fuel IH]; intros n acc a Hn.
  - exists 1. split; [lia|]. cbn [decimal_digits read_digits].
    change (2 ^ (Z.of_nat 0 + 1)) with 2 in Hn.
    rewrite Z.mod_small by lia.
    destruct (digit_char n) as [-> _]; [lia|].
    now rewrite Z.pow_1_r.
  - cbn [decimal_digits]. destruct (n <? 10) eqn:E.
    + apply Z.ltb_lt in E. exists 1. split; [lia|]. cbn [read_digits].
      rewrite Z.mod_small by lia.
      destruct (digit_char n) as [-> _]; [lia|].
      now rewrite Z.pow_1_r.
    + apply Z.ltb_ge in E.
      destruct (IH (n / 10)
                  (String (ascii_of_N (Z.to_N (48 + n mod 10))) acc) a)
        as (k & Hk & ->).
      { split; [apply Z.div_pos; lia|].
        replace (Z.of_nat (S fuel) + 1) with (Z.succ (Z.of_nat fuel + 1)) in Hn
          by lia.
        rewrite Z.pow_succ_r in Hn by lia.
        assert (0 < 2 ^ (Z.of_nat fuel + 1)) by (apply Z.pow_pos_nonneg; lia).
        apply Z.div_lt_upper_bound; [lia|].
        lia. }
      exists (k + 1). split; [lia|]. cbn [read_digits].
      destruct (digit_char (n mod 10)) as [-> _];
        [apply Z.mod_pos_bound; lia|].
      cbn [default]. f_equal. f_equal.
      rewrite Z.pow_add_r, Z.pow_1_r by lia.
      pose proof (Z.div_mod n 10 ltac:(lia)) as Hdm.
      unfold id. lia.
Qed.

Lemma read_decimal (n : Z) :
  0 <= n ->
  read_digits 10 None (decimal_digits (Z.to_nat (Z.log2 n)) n "") = Some n.
Proof.
  intros Hn.
  assert (Hb : 0 <= n < 2 ^ (Z.of_nat (Z.to_nat (Z.log2 n)) + 1)).
  { split; [exact Hn|]. rewrite Z2Nat.id by apply Z.log2_nonneg.
    destruct (Z.eq_dec n 0) as [->|Hz]; [reflexivity|].
    replace (Z.log2 n + 1) with (Z.succ (Z.log2 n)) by lia.
    apply Z.log2_spec. lia. }
  destruct (read_decimal_digits _ n "" None Hb) as (k & _ & ->).
  cbn [read_digits]. f_equal; cbn; lia.
Qed.

(** An id written in decimal parses back to the double nearest to it. *)
Lemma parseInt_decimal_double (n : Z) :
  parseInt (decimal n) = Some (to_double n).
Proof.
  unfold decimal.
  set (digits := decimal_digits (Z.to_nat (Z.log2 (Z.abs n))) (Z.abs n) "").
  assert (Hd : decimal_string digits = true)
    by (apply decimal_digits_decimal; [lia|reflexivity]).
  assert (Hr : read_digits 10 None digits = Some (Z.abs n))
    by (apply read_decimal; lia).
  destruct (n <? 0) eqn:E.
  - apply Z.ltb_lt in E. unfold parseInt. cbn [trimStart].
    change (is_white_space "-") with false. cbn [strip_sign].
    rewrite (decimal_string_no_prefix _ Hd), Hr. do 2 f_equal. lia.
  - apply Z.ltb_ge in E.
    destruct (decimal_digits_head (Z.to_nat (Z.log2 (Z.abs n))) (Z.abs n) "")
      as (c & r & Hcr).
    fold digits in Hcr. unfold parseInt.
    assert (Hc : is_decimal_char c = true).
    { rewrite Hcr in Hd. cbn in Hd. now apply andb_true_iff in Hd as [Hd _]. }
    destruct (decimal_char_plain c r Hc) as [Ht Hs].
    rewrite Hcr, Ht, Hs, <- Hcr.
    rewrite (decimal_string_no_prefix _ Hd), Hr. do 2 f_equal. lia.
Qed.

(** Up to magnitude 2^53 an id written in decimal parses back to
    itself. *)
Lemma parseInt_decimal (n : Z) :
  - two53 <= n <= two53 -> parseInt (decimal n) = Some n.
Proof.
  intros Hn. now rewrite parseInt_decimal_double, to_double_exact.
Qed.

(** ** Create, then fetch *)

Lemma find_last_added (tasks : list Task) (t : Task) :
  (forall u, u ∈ tasks -> task_id u < task_id t) ->
  List.find (id_is (Some (task_id t))) (tasks ++ [t]) = Some t.
Proof.
  induction tasks as [|u l IH]; intros H; cbn.
  - now rewrite Z.eqb_refl.
  - assert (Hu : task_id u < task_id t) by apply H, list_elem_of_here.
    apply Z.lt_neq, Z.eqb_neq in Hu. rewrite Hu.
    apply IH. intros v Hv. apply H. now right.
Qed.

(** C8, as the code has it: in a store whose ids all lie between -2^53
    and 2^53 - 1, where adding one is exact, a body that passes strict
    validation is stored by POST /tasks as a new last record, answered
    with 201, and GET /tasks/:id with the returned id gives that record
    back: title, description and completed are the body's, priority is
    the body's when it has one and "medium" otherwise, and id and
    createdAt are the generated ones (largest id plus one, the clock
    text). *)
Theorem C8_create_then_fetch (now : string) (body : Body) (tasks : list Task) :
  room_for 1 tasks ->
  validateTask body true = Valid ->
  exists t,
    post_tasks now body tasks
      = ((tasks ++ [t])%list, {| status := 201; json := JTask t |})
    /\ get_tasks_id (decimal (task_id t)) (tasks ++ [t])
       = {| status := 200; json := JTask t |}
    /\ task_title t = body_title body
    /\ task_description t = body_description body
    /\ task_completed t = body_completed body
    /\ task_priority t
       = (if is_undefined (body_priority body) then VString "medium"
          else body_priority body)
    /\ (exists m, largest_id tasks m /\ task_id t = m + 1)
    /\ task_createdAt t = VString now.
Proof.
  intros Hr Hv. eexists.
  split; [apply (post_valid now body tasks
                   (room_length 1 tasks ltac:(lia) Hr) Hv)|].
  pose proof (new_id_exact 1 tasks ltac:(lia) Hr) as Hid.
  destruct (room_maxId 1 tasks ltac:(lia) Hr) as [Hlo Hhi].
  cbn [task_id task_title task_description task_completed task_priority
       task_createdAt].
  split; [|split; [reflexivity|split; [reflexivity|split; [reflexivity|
    split; [|split; [|reflexivity]]]]]].
  - unfold get_tasks_id. rewrite Hid, parseInt_decimal by lia.
    match goal with |- context [(tasks ++ [?t])%list] => set (new := t) end.
    change (maxId tasks + 1) with (task_id new).
    rewrite find_last_added; [reflexivity|].
    intros u Hu. apply maxId_ge in Hu. cbn. lia.
  - destruct (valid_priority _ Hv) as [->|(Ht & p & Hp & _)]; [reflexivity|].
    rewrite or_else_l by exact Ht. now rewrite Hp.
  - exists (maxId tasks). split; [apply maxId_largest|exact Hid].
Qed.

Lemma C8_create_then_fetch_witness :
  let a := mkTask 15 (VString "X") (VString "Y") (VBool true)
             (VString "low") (VString "2025-12-28T16:30:59.889Z") in
  let body := mkBody VUndefined (VString "A") (VString "B") (VBool false)
                VUndefined VUndefined in
  exists t,
    post_tasks "2026-01-01T00:00:00.000Z" body [a]
      = (([a] ++ [t])%list, {| status := 201; json := JTask t |})
    /\ get_tasks_id (decimal (task_id t)) ([a] ++ [t])
       = {| status := 200; json := JTask t |}
    /\ task_title t = VString "A"
    /\ task_description t = VString "B"
    /\ task_completed t = VBool false
    /\ task_priority t = VString "medium"
    /\ (exists m, largest_id [a] m /\ task_id t = m + 1)
    /\ task_createdAt t = VString "2026-01-01T00:00:00.000Z".
Proof.
  intros a body.
  apply (C8_create_then_fetch "2026-01-01T00:00:00.000Z" body [a]).
  - split; [vm_compute; discriminate|].
    split; [vm_compute; discriminate|].
    repeat constructor; vm_compute; discriminate.
  - reflexivity.
Defined.

(** C8 as stated fails on a store that holds the id 2^53: the sum
    2^53 + 1 is no double and rounds back to 2^53, so the created task
    gets the id of the stored one and GET /tasks/:id with the returned
    id answers the stored task, whose fields are not the body's. *)
Lemma C8_counterexample :
  let old := mkTask 9007199254740992 (VString "A") (VString "B") (VBool true)
               (VString "medium") (VString "2025-12-28T16:30:59.889Z") in
  let body := mkBody VUndefined (VString "C") (VString "D") (VBool false)
                VUndefined VUndefined in
  validateTask body true = Valid
  /\ exists t,
       post_tasks "2026-01-01T00:00:00.000Z" body [old]
         = ([old; t], {| status := 201; json := JTask t |})
       /\ task_id t = 9007199254740992
       /\ get_tasks_id (decimal (task_id t)) [old; t]
          = {| status := 200; json := JTask old |}
       /\ task_title old <> body_title body
       /\ ~ (exists r, get_tasks_id (decimal (task_id t)) [old; t]
                         = {| status := 200; json := JTask r |}
                       /\ task_title r = body_title body).
Proof.
  intros old body. split; [reflexivity|].
  eexists. split; [reflexivity|]. split; [reflexivity|].
  split; [reflexivity|]. split; [discriminate|].
  intros (r & Hr & Ht).
  assert (E : get_tasks_id
                (decimal (task_id
                   (mkTask (to_double (maxId [old] + 1)) (body_title body)
                      (body_description body) (body_completed body)
                      (or_else (body_priority body) (VString "medium"))
                      (VString "2026-01-01T00:00:00.000Z"))))
                [old;
                 mkTask (to_double (maxId [old] + 1)) (body_title body)
                   (body_description body) (body_completed body)
                   (or_else (body_priority body) (VString "medium"))
                   (VString "2026-01-01T00:00:00.000Z")]
              = {| status := 200; json := JTask old |}) by reflexivity.
  rewrite E in Hr. injection Hr as <-. discriminate Ht.
Qed.

(** ** Fields a client cannot set *)

Lemma validateTask_reads_four_fields (b1 b2 : Body) (strict : bool) :
  body_title b1 = body_title b2 ->
  body_description b1 = body_description b2 ->
  body_completed b1 = body_completed b2 ->
  body_priority b1 = body_priority b2 ->
  validateTask b1 strict = validateTask b2 strict.
Proof. intros Ht Hd Hc Hp. unfold validateTask. now rewrite Ht, Hd, Hc, Hp. Qed.

(** C10, as the code has it: two POST /tasks requests, or two PUT
    /tasks/:id requests, on the same store at the same clock time whose
    bodies differ only in id and createdAt give the same store and the
    same response. The id of a created record is the double nearest to
    the largest stored id plus one, which is that sum itself while the
    largest id lies between -2^53 and 2^53 - 1, and its createdAt is
    the clock text; an updated record keeps the id of the record it
    replaces and that record's createdAt, or the clock text where it
    had none. *)
Theorem C10_body_id_and_createdAt_ignored (now id_param : string)
  (b1 b2 : Body) (tasks : list Task) :
  body_title b1 = body_title b2 ->
  body_description b1 = body_description b2 ->
  body_completed b1 = body_completed b2 ->
  body_priority b1 = body_priority b2 ->
  post_tasks now b1 tasks = post_tasks now b2 tasks
  /\ put_tasks_id now id_param b1 tasks = put_tasks_id now id_param b2 tasks
  /\ (forall t m, json (snd (post_tasks now b1 tasks)) = JTask t ->
        largest_id tasks m ->
        task_id t = to_double (m + 1)
        /\ (- two53 <= m < two53 -> task_id t = m + 1)
        /\ task_createdAt t = VString now)
  /\ (forall t, json (snd (put_tasks_id now id_param b1 tasks)) = JTask t ->
        exists i old,
          tasks !! i = Some old
          /\ fst (put_tasks_id now id_param b1 tasks) = <[i := t]> tasks
          /\ task_id t = task_id old
          /\ task_createdAt t = or_else (task_createdAt old) (VString now)).
Proof.
  intros Ht Hd Hc Hp.
  pose proof (validateTask_reads_four_fields b1 b2 true Ht Hd Hc Hp) as Hv.
  split; [|split; [|split]].
  - unfold post_tasks. now rewrite Hv, Ht, Hd, Hc, Hp.
  - unfold put_tasks_id. now rewrite Hv, Ht, Hd, Hc, Hp.
  - intros t m H Hm. apply largest_id_maxId in Hm as ->.
    unfold post_tasks in H. destruct (validateTask b1 true);
      [|discriminate H].
    destruct (argument_limit <? Z.of_nat (length tasks)); cbn in H;
      [discriminate H|].
    injection H as <-. cbn [task_id task_createdAt].
    split; [reflexivity|]. split; [|reflexivity].
    intros Hrange. apply to_double_exact. lia.
  - intros t. unfold put_tasks_id.
    destruct (findIndex _ tasks) as [i|] eqn:F; [|discriminate].
    destruct (put_found _ _ _ F) as (x & Hx & Hpx). rewrite Hpx.
    destruct (validateTask b1 true); [|discriminate].
    rewrite Hx. cbn. intros [= <-]. exists i, x. auto.
Qed.

Lemma C10_body_id_and_createdAt_ignored_witness :
  let store := [mkTask 4 (VString "A") (VString "B") (VBool false)
                  (VString "medium") (VString "2025-12-28T16:30:59.889Z");
                mkTask 1 (VString "E") (VString "F") (VBool true)
                  (VString "high") (VString "2025-12-28T16:31:00.000Z")] in
  let b1 := mkBody VUndefined (VString "C") (VString "D") (VBool true)
              (VString "low") VUndefined in
  let b2 := mkBody (VNumber 77) (VString "C") (VString "D") (VBool true)
              (VString "low") (VString "1999-01-01T00:00:00.000Z") in
  post_tasks "2026-01-01T00:00:00.000Z" b1 store
    = post_tasks "2026-01-01T00:00:00.000Z" b2 store
  /\ put_tasks_id "2026-01-01T00:00:00.000Z" "1" b1 store
     = put_tasks_id "2026-01-01T00:00:00.000Z" "1" b2 store
  /\ (forall t,
        json (snd (post_tasks "2026-01-01T00:00:00.000Z" b1 store)) = JTask t ->
        task_id t = 5).
Proof.
  intros store b1 b2.
  pose proof (C10_body_id_and_createdAt_ignored "2026-01-01T00:00:00.000Z" "1"
                b1 b2 store eq_refl eq_refl eq_refl eq_refl)
    as (H1 & H2 & H3 & _).
  split; [exact H1|]. split; [exact H2|].
  intros t Ht. destruct (H3 t 4 Ht) as (_ & Hid & _).
  - split.
    + exists (mkTask 4 (VString "A") (VString "B") (VBool false)
                (VString "medium") (VString "2025-12-28T16:30:59.889Z")).
      split; [apply list_elem_of_here|reflexivity].
    + intros v Hv. repeat (apply elem_of_cons in Hv as [->|Hv]); cbn; try lia.
      inversion Hv.
  - apply Hid. unfold two53. lia.
Defined.

(** C10 as stated fails in its account of the id on a store that holds
    the id 2^53: the created record gets the id 2^53, not the largest
    stored id plus one. *)
Lemma C10_counterexample :
  let old := mkTask 9007199254740992 (VString "A") (VString "B") (VBool true)
               (VString "medium") (VString "2025-12-28T16:30:59.889Z") in
  let body := mkBody VUndefined (VString "C") (VString "D") (VBool false)
                VUndefined VUndefined in
  largest_id [old] 9007199254740992
  /\ exists t,
       json (snd (post_tasks "2026-01-01T00:00:00.000Z" body [old])) = JTask t
       /\ task_id t = 9007199254740992
       /\ task_id t <> 9007199254740992 + 1.
Proof.
  intros old body. split.
  - split.
    + exists old. split; [apply list_elem_of_here|reflexivity].
    + intros v Hv. apply list_elem_of_singleton in Hv as ->. cbn. lia.
  - eexists. split; [reflexivity|]. split; [reflexivity|].
    intros H. vm_compute in H. discriminate H.
Qed.

(** ** Sorting *)

Lemma insert_sorted_Permutation {A : Type} (compare : A -> A -> option Z)
  (x : A) (l : list A) :
  Permutation (insert_sorted compare x l) (x :: l).
Proof.
  induction l as [|y l IH]; cbn; [reflexivity|].
  destruct (SortCompare (compare x y) <=? 0); [reflexivity|].
  rewrite IH. apply perm_swap.
Qed.

Lemma Array_sort_Permutation {A : Type} (compare : A -> A -> option Z)
  (l : list A) :
  Permutation (Array_sort compare l) l.
Proof.
  induction l as [|x l IH]; [reflexivity|].
  change (Array_sort compare (x :: l))
    with (insert_sorted compare x (Array_sort compare l)).
  rewrite insert_sorted_Permutation. now apply perm_skip.
Qed.

Section SortByKey.

Context {A : Type} (compare : A -> A -> option Z) (key : A -> Z).

Lemma insert_sorted_StronglySorted (x : A) (l : list A) :
  (forall y, y ∈ l -> compare x y = Some (key x - key y)) ->
  StronglySorted (fun a b => key a <= key b) l ->
  StronglySorted (fun a b => key a <= key b) (insert_sorted compare x l).
Proof.
  induction l as [|y l IH]; intros Hc Hs; cbn.
  - repeat constructor.
  - apply StronglySorted_inv in Hs as [Hs Hy].
    rewrite (Hc y) by apply list_elem_of_here. cbn.
    destruct (key x - key y <=? 0) eqn:E.
    + apply Z.leb_le in E. constructor.
      * now constructor.
      * constructor; [lia|].
        eapply Forall_impl; [exact Hy|]. cbn. intros z Hz. lia.
    + apply Z.leb_gt in E. constructor.
      * apply IH; [|exact Hs]. intros z Hz. apply Hc. now right.
      * rewrite insert_sorted_Permutation. constructor; [lia|].
        exact Hy.
Qed.

Lemma Array_sort_StronglySorted (l : list A) :
  (forall x y, x ∈ l -> y ∈ l -> compare x y = Some (key x - key y)) ->
  StronglySorted (fun a b => key a <= key b) (Array_sort compare l).
Proof.
  induction l as [|x l IH]; intros Hc; [constructor|].
  change (Array_sort compare (x :: l))
    with (insert_sorted compare x (Array_sort compare l)).
  apply insert_sorted_StronglySorted.
  - intros y Hy. rewrite Array_sort_Permutation in Hy.
    apply Hc; [apply list_elem_of_here|now right].
  - apply IH. intros y z Hy Hz. apply Hc; now right.
Qed.

End SortByKey.

Lemma StronglySorted_refine {A B : Type} (R R' : A -> A -> Prop) (f : A -> B)
  (l : list A) :
  (forall a b, R a b -> f a <> f b -> R' a b) ->
  NoDup (map f l) -> StronglySorted R l -> StronglySorted R' l.
Proof.
  intros HR. induction l as [|x l IH]; intros Hnd Hs; [constructor|].
  cbn in Hnd. apply NoDup_cons in Hnd as [Hx Hnd].
  apply StronglySorted_inv in Hs as [Hs Hall].
  constructor; [now apply IH|].
  rewrite Forall_forall in Hall |- *. intros y Hy.
  apply HR; [now apply Hall|]. intros E. apply Hx. rewrite E.
  now apply (list_elem_of_fmap_2 f).
Qed.

Lemma filter_sublist {A : Type} (p : A -> bool) (l : list A) :
  sublist (List.filter p l) l.
Proof.
  induction l as [|x l IH]; cbn; [constructor|].
  destruct (p x); now constructor.
Qed.

(** ** GET /tasks *)

Lemma completed_filter (v : value) (t : Task) :
  strict_equals (task_completed t) (VBool (strict_equals v (VString "true")))
  = completed_is (is_literal_true v) t.
Proof.
  unfold completed_is.
  replace (strict_equals v (VString "true")) with (is_literal_true v)
    by now destruct v.
  now destruct (task_completed t).
Qed.

Lemma get_tasks_sorts_selected (Date_parse : string -> option Z)
  (query : Query) (tasks : list Task) :
  get_tasks Date_parse query tasks
  = {| status := 200;
       json := JTasks (Array_sort
                         (compare_createdAt Date_parse (query_sort query))
                         (selected query tasks)) |}.
Proof.
  unfold get_tasks, selected. do 3 f_equal.
  destruct (query_completed query) eqn:E; cbn [is_undefined negb];
    try reflexivity; apply List.filter_ext; intros t; apply completed_filter.
Qed.




(** ** GET /tasks/priority/:level *)

Lemma includes_In (arr : list string) (s : string) :
  includes arr (VString s) = true <-> In s arr.
Proof.
  cbn. rewrite existsb_exists. split.
  - intros (x & Hx & E). apply String.eqb_eq in E. now subst.
  - intros H. exists s. split; [exact H|apply String.eqb_refl].
Qed.

Lemma filter_throwing_total {A : Type} (p : A -> option bool) (q : A -> bool)
  (l : list A) :
  Forall (fun x => p x = Some (q x)) l ->
  filter_throwing p l = Some (List.filter q l).
Proof.
  induction 1 as [|x l Hx _ IH]; cbn; [reflexivity|].
  now rewrite Hx, IH.
Qed.

(** The priority a task counts with is what the handler lower-cases,
    and the handler throws exactly when there is none. *)
Lemma priority_matches_spec (level : string) (t : Task) :
  priority_matches level t
  = match priority_or_medium t with
    | Some p => Some (String.eqb (toLowerCase p) level)
    | None => None
    end.
Proof.
  unfold priority_matches, priority_or_medium, or_else.
  destruct (task_priority t) as [| |[]|n|[|c s]|]; cbn; try reflexivity.
  now destruct (n =? 0).
Qed.

(** The stores whose priorities are texts or missing are those on
    which the handler does not throw. *)
Lemma priority_is_text_counts (t : Task) :
  priority_is_text t = true <-> priority_or_medium t <> None.
Proof.
  unfold priority_is_text, priority_or_medium, or_else.
  destruct (task_priority t) as [| |[]|n|[|c s]|]; cbn;
    try (split; [discriminate|reflexivity]);
    try (split; [discriminate|intros H; now contradiction H]).
  destruct (n =? 0); cbn.
  - split; [discriminate|reflexivity].
  - split; [discriminate|intros H; now contradiction H].
Qed.

(** C5: when the lower-cased path segment is one of low, medium, high,
    GET /tasks/priority/:level answers 200 with exactly the tasks, in
    store order, whose priority equals the level up to case, a task
    that has no priority counting as "medium"; otherwise it answers 400
    with the error "Invalid priority level. Must be one of: low,
    medium, high" and no tasks. Every stored priority is a text or is
    missing. *)
Theorem C5_priority_route (level_param : string) (tasks : list Task) :
  (In (toLowerCase level_param) ["low"; "medium"; "high"] ->
   Forall (fun t => priority_or_medium t <> None) tasks ->
   get_tasks_priority level_param tasks
   = {| status := 200;
        json := JTasks (List.filter (has_priority level_param) tasks) |})
  /\ (~ In (toLowerCase level_param) ["low"; "medium"; "high"] ->
      get_tasks_priority level_param tasks
      = {| status := 400;
           json := JError
             "Invalid priority level. Must be one of: low, medium, high" |}).
Proof.
  unfold get_tasks_priority. split.
  - intros Hin Htext. apply includes_In in Hin.
    unfold validPriorities. rewrite Hin. cbn [negb].
    rewrite (filter_throwing_total _ (has_priority level_param)); [reflexivity|].
    eapply Forall_impl; [exact Htext|]. cbn beta. intros t Ht.
    rewrite priority_matches_spec. unfold has_priority, same_ignoring_case.
    destruct (priority_or_medium t); [reflexivity|contradiction].
  - intros Hnot.
    destruct (includes validPriorities (VString (toLowerCase level_param)))
      eqn:E; [|reflexivity].
    apply includes_In in E. contradiction.
Qed.

Lemma C5_priority_route_witness :
  let a := mkTask 1 (VString "A") (VString "B") (VBool true)
             (VString "High") (VString "2025-12-28T16:30:59.889Z") in
  let b := mkTask 2 (VString "C") (VString "D") (VBool false)
             VUndefined (VString "2025-12-28T16:31:00.000Z") in
  let c := mkTask 3 (VString "E") (VString "F") (VBool false)
             (VString "low") (VString "2025-12-28T16:31:01.000Z") in
  get_tasks_priority "HIGH" [a; b; c]
    = {| status := 200; json := JTasks [a] |}
  /\ get_tasks_priority "Medium" [a; b; c]
     = {| status := 200; json := JTasks [b] |}
  /\ get_tasks_priority "urgent" [a; b; c]
     = {| status := 400;
          json := JError
            "Invalid priority level. Must be one of: low, medium, high" |}.
Proof.
  intros a b c. split; [|split].
  - apply (proj1 (C5_priority_route "HIGH" [a; b; c])).
    + cbn. auto.
    + repeat constructor; discriminate.
  - apply (proj1 (C5_priority_route "Medium" [a; b; c])).
    + cbn. auto.
    + repeat constructor; discriminate.
  - apply (proj2 (C5_priority_route "urgent" [a; b; c])).
    cbn. intros [H|[H|[H|[]]]]; discriminate H.
Defined.

Example priority_route_throws_on_number :
  get_tasks_priority "high"
    [mkTask 1 (VString "A") (VString "B") (VBool true) (VNumber 5)
       (VString "2025-12-28T16:30:59.889Z")]
  = {| status := 500; json := JServerError |}.
Proof. reflexivity. Qed.

(** ** The order of GET /tasks *)

Lemma missing_createdAt_is_epoch (Date_parse : string -> option Z) (t : Task) :
  truthy (task_createdAt t) = false ->
  time_value Date_parse t = Some 0 /\ timestamp Date_parse t = 0.
Proof.
  intros H. unfold timestamp, time_value. now rewrite or_else_r.
Qed.

Lemma compare_createdAt_key (Date_parse : string -> option Z) (sort : value)
  (a b : Task) :
  time_value Date_parse a <> None -> time_value Date_parse b <> None ->
  let key t :=
    if strict_equals sort (VString "oldest") then timestamp Date_parse t
    else - timestamp Date_parse t in
  compare_createdAt Date_parse sort a b = Some (key a - key b).
Proof.
  intros Ha Hb. unfold compare_createdAt, timestamp.
  fold (time_value Date_parse a). fold (time_value Date_parse b).
  destruct (time_value Date_parse a) as [x|]; [|contradiction].
  destruct (time_value Date_parse b) as [y|]; [|contradiction].
  cbn. destruct (strict_equals sort (VString "oldest")); cbn; f_equal; lia.
Qed.

(** C2, as the code has it: when every createdAt in the store is
    missing or parses as a date and no two tasks have the same
    timestamp, GET /tasks answers 200 with the selected tasks ordered by
    createdAt, newest first by default and oldest first with
    sort=oldest; a task without createdAt is ordered with timestamp
    epoch zero. *)
Theorem C2_sorted_by_createdAt (Date_parse : string -> option Z)
  (query : Query) (tasks : list Task) :
  (forall t, t ∈ tasks -> time_value Date_parse t <> None) ->
  NoDup (map (timestamp Date_parse) tasks) ->
  exists l,
    get_tasks Date_parse query tasks = {| status := 200; json := JTasks l |}
    /\ Permutation l (selected query tasks)
    /\ StronglySorted (in_order Date_parse (is_oldest query)) l
    /\ (forall t, truthy (task_createdAt t) = false ->
          timestamp Date_parse t = 0).
Proof.
  intros Hparse Hnd. eexists. split; [apply get_tasks_sorts_selected|].
  set (cmp := compare_createdAt Date_parse (query_sort query)).
  set (sel := selected query tasks).
  assert (Hsub : sublist sel tasks).
  { unfold sel, selected. destruct (query_completed query);
      try apply filter_sublist. reflexivity. }
  split; [apply Array_sort_Permutation|]. split.
  - set (key := fun t =>
        if strict_equals (query_sort query) (VString "oldest")
        then timestamp Date_parse t else - timestamp Date_parse t).
    apply (StronglySorted_refine (fun a b => key a <= key b) _
             (timestamp Date_parse)).
    + intros a b. unfold key, in_order, is_oldest.
      destruct (strict_equals (query_sort query) (VString "oldest")); lia.
    + change (NoDup (timestamp Date_parse <$> Array_sort cmp sel)).
      rewrite Array_sort_Permutation.
      apply (sublist_NoDup _ _ Hnd). now apply (fmap_sublist (timestamp Date_parse)).
    + apply (Array_sort_StronglySorted cmp key).
      intros x y Hx Hy. apply compare_createdAt_key; apply Hparse.
      * eapply elem_of_sublist; [exact Hx|exact Hsub].
      * eapply elem_of_sublist; [exact Hy|exact Hsub].
  - intros t Ht. now apply missing_createdAt_is_epoch.
Qed.

Lemma C2_sorted_by_createdAt_witness :
  let newer := mkTask 1 (VString "A") (VString "B") (VBool true)
                 (VString "medium") (VString "2025-12-28T16:30:59.889Z") in
  let undated := mkTask 2 (VString "C") (VString "D") (VBool false)
                   (VString "high") VUndefined in
  let older := mkTask 3 (VString "E") (VString "F") (VBool false)
                 (VString "low") (VString "2024-02-29T00:00:00.000Z") in
  get_tasks Date_parse_iso (mkQuery VUndefined VUndefined)
    [older; undated; newer]
    = {| status := 200; json := JTasks [newer; older; undated] |}
  /\ exists l,
       get_tasks Date_parse_iso (mkQuery VUndefined (VString "oldest"))
         [older; undated; newer]
         = {| status := 200; json := JTasks l |}
       /\ StronglySorted
            (fun a b => timestamp Date_parse_iso a < timestamp Date_parse_iso b)
            l.
Proof.
  intros newer undated older. split; [reflexivity|].
  destruct (C2_sorted_by_createdAt Date_parse_iso
              (mkQuery VUndefined (VString "oldest")) [older; undated; newer])
    as (l & Hl & _ & Hs & _).
  - intros t Ht.
    repeat (apply elem_of_cons in Ht as [->|Ht]); try discriminate.
    inversion Ht.
  - assert (E : map (timestamp Date_parse_iso) [older; undated; newer]
                = [1709164800000; 0; 1766939459889]) by reflexivity.
    rewrite E. repeat constructor; rewrite ?elem_of_cons, ?elem_of_nil; lia.
  - exists l. split; [exact Hl|exact Hs].
Defined.

(** C2 as stated fails for an unparseable createdAt: such a task
    compares as equal to every other (the comparator gives NaN), so it
    stays where it stood instead of sorting as epoch zero. *)
Lemma C2_counterexample :
  let dated := mkTask 1 (VString "A") (VString "B") (VBool true)
                 (VString "medium") (VString "2025-12-28T16:30:59.889Z") in
  let unparseable := mkTask 2 (VString "C") (VString "D") (VBool false)
                       (VString "high") (VString "yesterday") in
  let query := mkQuery VUndefined (VString "oldest") in
  NoDup (map (timestamp Date_parse_iso) [dated; unparseable])
  /\ timestamp Date_parse_iso unparseable = 0
  /\ get_tasks Date_parse_iso query [dated; unparseable]
     = {| status := 200; json := JTasks [dated; unparseable] |}
  /\ ~ ordered_by_createdAt Date_parse_iso query [dated; unparseable].
Proof.
  intros dated unparseable query.
  assert (E : map (timestamp Date_parse_iso) [dated; unparseable]
              = [1766939459889; 0]) by reflexivity.
  split.
  { rewrite E. repeat constructor; rewrite ?elem_of_cons, ?elem_of_nil; lia. }
  split; [reflexivity|]. split; [reflexivity|].
  intros (l & Hl & Hs).
  change (JTasks [dated; unparseable] = JTasks l) in Hl.
  injection Hl as <-.
  apply StronglySorted_inv in Hs as [_ Hs].
  apply Forall_inv in Hs.
  change (1766939459889 < 0) in Hs. lia.
Qed.

(** * Further properties of the handlers *)

(** ** validateTask, both modes *)

Lemma nonblank_string_spec (v : value) :
  nonblank_string v = true
  <-> exists s, v = VString s /\ all_white_space s = false.
Proof.
  destruct v as [| |b|n|s|]; cbn;
    try (split; [discriminate|intros (s' & H & _); discriminate H]).
  rewrite trim_empty, negb_true_iff. split.
  - intros H. now exists s.
  - now intros (s' & [= <-] & H).
Qed.

Lemma is_boolean_spec (v : value) :
  is_boolean v = true <-> exists c, v = VBool c.
Proof.
  destruct v as [| |b|n|s|]; cbn;
    try (split; [discriminate|intros (c & H); discriminate H]).
  split; [intros _; now exists b|reflexivity].
Qed.

Lemma priority_rule_spec (v : value) :
  (if negb (is_undefined v)
   then if negb (includes validPriorities v)
        then Invalid "priority must be one of: low, medium, high" else Valid
   else Valid) = Valid
  <-> v = VUndefined
      \/ exists p, v = VString p /\ In p ["low"; "medium"; "high"].
Proof.
  destruct v as [| |b|n|s|]; cbn [is_undefined negb].
  - split; [now left|reflexivity].
  - split; [discriminate|]. intros [H|(p & H & _)]; discriminate H.
  - split; [discriminate|]. intros [H|(p & H & _)]; discriminate H.
  - split; [discriminate|]. intros [H|(p & H & _)]; discriminate H.
  - destruct (includes validPriorities (VString s)) eqn:E; cbn [negb].
    + split; [|reflexivity]. intros _. right. exists s. split; [reflexivity|].
      now apply includes_In.
    + split; [discriminate|]. intros [H|(p & [= <-] & H)]; [discriminate H|].
      apply includes_In in H. unfold validPriorities in E. congruence.
  - split; [discriminate|]. intros [H|(p & H & _)]; discriminate H.
Qed.

(** X1: strict validation accepts a body exactly when title and
    description are strings holding more than white space, completed is
    a boolean, and priority is absent or exactly one of the strings
    low, medium, high. *)
Theorem X1_strict_accepts_exactly (body : Body) :
  validateTask body true = Valid
  <-> (exists t, body_title body = VString t /\ all_white_space t = false)
      /\ (exists d, body_description body = VString d
                    /\ all_white_space d = false)
      /\ (exists c, body_completed body = VBool c)
      /\ (body_priority body = VUndefined
          \/ exists p, body_priority body = VString p
                       /\ In p ["low"; "medium"; "high"]).
Proof.
  rewrite <- !nonblank_string_spec, <- is_boolean_spec, <- priority_rule_spec.
  unfold validateTask. rewrite !title_check, completed_check.
  destruct (nonblank_string (body_title body)); cbn [negb];
    [|split; [discriminate|intros (H & _); discriminate H]].
  destruct (nonblank_string (body_description body)); cbn [negb];
    [|split; [discriminate|intros (_ & H & _); discriminate H]].
  destruct (is_boolean (body_completed body)); cbn [negb];
    [|split; [discriminate|intros (_ & _ & H & _); discriminate H]].
  split; [auto|]. now intros (_ & _ & _ & H).
Qed.

Lemma lenient_check (v : value) :
  negb (is_undefined v) && not_nonempty_string v = false
  <-> v = VUndefined \/ nonblank_string v = true.
Proof.
  destruct v as [| |b|n|s|]; cbn;
    try (split; [discriminate|intros [H|H]; discriminate H]).
  - split; [now left|reflexivity].
  - rewrite <- string_eqb_empty, negb_true_iff. split; [now right|].
    now intros [H|H].
Qed.

Lemma lenient_completed_check (v : value) :
  negb (is_undefined v) && negb (String.eqb (typeof v) "boolean") = false
  <-> v = VUndefined \/ is_boolean v = true.
Proof.
  destruct v as [| |b|n|s|]; cbn;
    try (split; [discriminate|intros [H|H]; discriminate H]).
  - split; [now left|reflexivity].
  - split; [now right|reflexivity].
Qed.

(** X2: the lenient mode of validateTask (requireAllFields false)
    accepts a body exactly when each of title and description is absent
    or a string holding more than white space, completed is absent or a
    boolean, and priority is absent or exactly low, medium or high. *)
Theorem X2_lenient_accepts_exactly (body : Body) :
  validateTask body false = Valid
  <-> (body_title body = VUndefined
       \/ exists t, body_title body = VString t /\ all_white_space t = false)
      /\ (body_description body = VUndefined
          \/ exists d, body_description body = VString d
                       /\ all_white_space d = false)
      /\ (body_completed body = VUndefined
          \/ exists c, body_completed body = VBool c)
      /\ (body_priority body = VUndefined
          \/ exists p, body_priority body = VString p
                       /\ In p ["low"; "medium"; "high"]).
Proof.
  rewrite <- !nonblank_string_spec, <- is_boolean_spec, <- priority_rule_spec.
  rewrite <- !lenient_check, <- lenient_completed_check.
  unfold validateTask.
  destruct (negb (is_undefined (body_title body))
            && not_nonempty_string (body_title body));
    [split; [discriminate|intros (H & _); discriminate H]|].
  destruct (negb (is_undefined (body_description body))
            && not_nonempty_string (body_description body));
    [split; [discriminate|intros (_ & H & _); discriminate H]|].
  destruct (negb (is_undefined (body_completed body))
            && negb (String.eqb (typeof (body_completed body)) "boolean"));
    [split; [discriminate|intros (_ & _ & H & _); discriminate H]|].
  split; [auto|]. now intros (_ & _ & _ & H).
Qed.

(** X3: whatever the strict mode accepts the lenient mode accepts, and
    a body the lenient mode rejects is rejected by the strict mode
    too. *)
Theorem X3_lenient_is_weaker (body : Body) :
  (validateTask body true = Valid -> validateTask body false = Valid)
  /\ (forall message, validateTask body false = Invalid message ->
        exists message', validateTask body true = Invalid message').
Proof.
  assert (H : validateTask body true = Valid -> validateTask body false = Valid).
  { unfold validateTask. rewrite !title_check, completed_check.
    destruct (nonblank_string (body_title body)) eqn:Et; cbn [negb];
      [|discriminate].
    destruct (nonblank_string (body_description body)) eqn:Ed; cbn [negb];
      [|discriminate].
    destruct (is_boolean (body_completed body)) eqn:Ec; cbn [negb];
      [|discriminate].
    intros Hp.
    assert (E1 : negb (is_undefined (body_title body))
                 && not_nonempty_string (body_title body) = false)
      by (apply lenient_check; now right).
    assert (E2 : negb (is_undefined (body_description body))
                 && not_nonempty_string (body_description body) = false)
      by (apply lenient_check; now right).
    assert (E3 : negb (is_undefined (body_completed body))
                 && negb (String.eqb (typeof (body_completed body)) "boolean")
                 = false)
      by (apply lenient_completed_check; now right).
    now rewrite E1, E2, E3. }
  split; [exact H|]. intros message Hl.
  destruct (validateTask body true) as [|message'] eqn:E; [|now exists message'].
  rewrite (H eq_refl) in Hl. discriminate Hl.
Qed.

Lemma X3_lenient_is_weaker_witness :
  let body := mkBody VUndefined (VString "A") (VString "B") (VBool false)
                (VString "low") VUndefined in
  validateTask body false = Valid.
Proof.
  intros body. apply (proj1 (X3_lenient_is_weaker body)). reflexivity.
Defined.

(** ** Start-up *)

Lemma backfill_id (now : string) (t : Task) :
  backfilled t = true -> backfill now t = t.
Proof.
  unfold backfilled, backfill. intros H.
  apply andb_true_iff in H as [Hp Hc].
  rewrite !or_else_l by assumption. now destruct t.
Qed.

(** X4: start-up. When task.json cannot be read the store starts
    empty. Otherwise the store has the file's records in the file's
    order, each with its id, title, description and completed, with its
    priority when that is truthy and "medium" otherwise, and with its
    createdAt when that is truthy and the clock text otherwise; a file
    whose records all have priority and createdAt is loaded unchanged. *)
Theorem X4_start_up (clock : nat -> string) (file : list Task) :
  initial_tasks clock None = []
  /\ length (initial_tasks clock (Some file)) = length file
  /\ (forall (i : nat) t, file !! i = Some t ->
        exists t', initial_tasks clock (Some file) !! i = Some t'
          /\ task_id t' = task_id t
          /\ task_title t' = task_title t
          /\ task_description t' = task_description t
          /\ task_completed t' = task_completed t
          /\ task_priority t'
             = (if truthy (task_priority t) then task_priority t
                else VString "medium")
          /\ task_createdAt t'
             = (if truthy (task_createdAt t) then task_createdAt t
                else VString (clock i)))
  /\ (Forall (fun t => backfilled t = true) file ->
      initial_tasks clock (Some file) = file).
Proof.
  split; [reflexivity|]. cbn [initial_tasks]. split; [apply length_imap|].
  split.
  - intros i t Ht. exists (backfill (clock i) t).
    rewrite list_lookup_imap, Ht. repeat split.
  - intros Hall. apply list_eq. intros i. rewrite list_lookup_imap.
    destruct (file !! i) as [t|] eqn:Ht; cbn; [|reflexivity].
    f_equal. apply backfill_id.
    rewrite Forall_forall in Hall. apply Hall, list_elem_of_lookup. eauto.
Qed.

Lemma X4_start_up_witness :
  let complete := mkTask 1 (VString "A") (VString "B") (VBool true)
                    (VString "high") (VString "2025-12-28T16:30:59.889Z") in
  let bare := mkTask 2 (VString "C") (VString "D") (VBool false)
                VUndefined VUndefined in
  initial_tasks (fun _ => "2026-01-01T00:00:00.000Z") (Some [complete])
    = [complete]
  /\ exists t', initial_tasks (fun _ => "2026-01-01T00:00:00.000Z")
                  (Some [complete; bare]) !! 1%nat = Some t'
       /\ task_priority t' = VString "medium"
       /\ task_createdAt t' = VString "2026-01-01T00:00:00.000Z".
Proof.
  intros complete bare. split.
  - apply (X4_start_up (fun _ => "2026-01-01T00:00:00.000Z") [complete]).
    repeat constructor.
  - destruct (proj1 (proj2 (proj2
        (X4_start_up (fun _ => "2026-01-01T00:00:00.000Z") [complete; bare])))
        1%nat bare eq_refl) as (t' & H & _ & _ & _ & _ & Hp & Hc).
    exists t'. auto.
Defined.

(** ** GET /tasks/:id *)

Lemma find_findIndex {A : Type} (p : A -> bool) (l : list A) (i : nat) :
  findIndex p l = Some i -> List.find p l = l !! i.
Proof.
  revert i. induction l as [|x l IH]; cbn; [discriminate|]. intros i.
  destruct (p x); [now intros [= <-]|].
  destruct (findIndex p l) as [k|]; cbn; [|discriminate].
  intros [= <-]. now apply IH.
Qed.

(** X5: GET /tasks/:id with a segment that parses to the id of a stored
    task answers 200 with the first record of the store that has this
    id; no record before it has the id, and with unique ids it is that
    very task. *)
Theorem X5_get_by_id_finds_first (id_param : string) (tasks : list Task)
  (t : Task) :
  t ∈ tasks ->
  parseInt id_param = Some (task_id t) ->
  exists (i : nat) u,
    tasks !! i = Some u
    /\ task_id u = task_id t
    /\ (forall (j : nat) v, (j < i)%nat -> tasks !! j = Some v ->
          task_id v <> task_id t)
    /\ get_tasks_id id_param tasks = {| status := 200; json := JTask u |}
    /\ (NoDup (map task_id tasks) -> u = t).
Proof.
  intros Ht Hp. destruct (task_with_id _ _ _ Ht Hp) as [i F].
  destruct (findIndex_Some _ _ _ F) as (u & Hu & Hid & Hbefore).
  apply id_is_true in Hid. exists i, u.
  assert (E : task_id u = task_id t) by congruence.
  repeat split; auto.
  - intros j v Hj Hv Hsame. specialize (Hbefore j v Hj Hv).
    rewrite Hp in Hbefore. cbn in Hbefore.
    apply Z.eqb_neq in Hbefore. contradiction.
  - unfold get_tasks_id. now rewrite (find_findIndex _ _ _ F), Hu.
  - intros Hnd. apply (same_id_same_task tasks); auto.
    apply list_elem_of_lookup. eauto.
Qed.

Lemma X5_get_by_id_finds_first_witness :
  let a := mkTask 1 (VString "A") (VString "B") (VBool true)
             (VString "high") (VString "2025-12-28T16:30:59.889Z") in
  let b := mkTask 2 (VString "C") (VString "D") (VBool false)
             (VString "medium") (VString "2025-12-28T16:31:00.000Z") in
  exists (i : nat) u,
    [a; b] !! i = Some u
    /\ task_id u = 2
    /\ (forall (j : nat) v, (j < i)%nat -> [a; b] !! j = Some v ->
          task_id v <> 2)
    /\ get_tasks_id "2" [a; b] = {| status := 200; json := JTask u |}
    /\ (NoDup (map task_id [a; b]) -> u = b).
Proof.
  intros a b. apply (X5_get_by_id_finds_first "2" [a; b] b).
  - apply list_elem_of_further, list_elem_of_here.
  - reflexivity.
Defined.

(** ** Text after the digits of an id *)

Lemma not_decimal_no_digit (c : ascii) :
  is_decimal_char c = false -> digit_in 10 c = None.
Proof.
  destruct c as [[] [] [] [] [] [] [] []]; try reflexivity; discriminate.
Qed.

Lemma decimal_char_digit (c : ascii) :
  is_decimal_char c = true -> exists d, digit_in 10 c = Some d.
Proof.
  destruct c as [[] [] [] [] [] [] [] []]; try discriminate; eauto.
Qed.

Lemma read_digits_stops (ds : string) (c : ascii) (s : string) (a : option Z) :
  decimal_string ds = true -> is_decimal_char c = false ->
  read_digits 10 a (ds ++ String c s) = read_digits 10 a ds.
Proof.
  intros Hds Hc. revert a. induction ds as [|d ds IH]; intros a; cbn.
  - now rewrite (not_decimal_no_digit c Hc).
  - cbn in Hds. apply andb_true_iff in Hds as [Hd Hds].
    destruct (decimal_char_digit d Hd) as [x ->]. now apply IH.
Qed.

Lemma decimal_string_app (ds : string) (c : ascii) (s : string) :
  decimal_string ds = true -> ds <> "" ->
  c <> "x"%char -> c <> "X"%char ->
  strip_hex_prefix (ds ++ String c s) = (10, (ds ++ String c s)%string).
Proof.
  intros Hds Hne Hx HX. destruct ds as [|d1 [|d2 r]]; [contradiction| |].
  - cbn [String.append].
    destruct d1 as [[] [] [] [] [] [] [] []]; try reflexivity.
    destruct c as [[] [] [] [] [] [] [] []]; try reflexivity; contradiction.
  - cbn [String.append]. cbn in Hds.
    apply andb_true_iff in Hds as [_ Hds]. apply andb_true_iff in Hds as [H2 _].
    destruct d1 as [[] [] [] [] [] [] [] []]; try reflexivity.
    destruct d2 as [[] [] [] [] [] [] [] []]; try reflexivity; discriminate H2.
Qed.

(** X6: parseInt reads the leading number and ignores what follows: the
    decimal text of an id of magnitude up to 2^53 followed by any text
    that starts with a character other than a digit, x or X parses to
    that id, so GET, PUT and DELETE answer such a segment (say 12abc or
    12.5) exactly as they answer the plain id. *)
Theorem X6_text_after_id_ignored (n : Z) (c : ascii) (rest : string)
  (now : string) (body : Body) (tasks : list Task) :
  - two53 <= n <= two53 ->
  is_decimal_char c = false -> c <> "x"%char -> c <> "X"%char ->
  let id_param := (decimal n ++ String c rest)%string in
  parseInt id_param = Some n
  /\ get_tasks_id id_param tasks = get_tasks_id (decimal n) tasks
  /\ put_tasks_id now id_param body tasks
     = put_tasks_id now (decimal n) body tasks
  /\ delete_tasks_id id_param tasks = delete_tasks_id (decimal n) tasks.
Proof.
  intros Hn Hc Hx HX id_param.
  assert (Hp : parseInt id_param = Some n).
  { transitivity (Some (to_double n)); [|now rewrite to_double_exact].
    unfold id_param, decimal.
    set (digits := decimal_digits (Z.to_nat (Z.log2 (Z.abs n))) (Z.abs n) "").
    assert (Hd : decimal_string digits = true)
      by (apply decimal_digits_decimal; [lia|reflexivity]).
    assert (Hr : read_digits 10 None digits = Some (Z.abs n))
      by (apply read_decimal; lia).
    destruct (decimal_digits_head (Z.to_nat (Z.log2 (Z.abs n))) (Z.abs n) "")
      as (d & r & Hdr).
    fold digits in Hdr.
    assert (Hne : digits <> "") by (rewrite Hdr; discriminate).
    assert (Hhead : is_decimal_char d = true).
    { rewrite Hdr in Hd. cbn in Hd. now apply andb_true_iff in Hd as [Hd _]. }
    destruct (n <? 0) eqn:E.
    - apply Z.ltb_lt in E. unfold parseInt. cbn [String.append trimStart].
      change (is_white_space "-") with false. cbn [strip_sign].
      rewrite (decimal_string_app _ _ _ Hd Hne Hx HX).
      rewrite (read_digits_stops _ _ _ _ Hd Hc), Hr. do 2 f_equal. lia.
    - apply Z.ltb_ge in E. unfold parseInt.
      assert (Hplain : trimStart (digits ++ String c rest)
                       = (digits ++ String c rest)%string
                       /\ strip_sign (digits ++ String c rest)
                          = (1, (digits ++ String c rest)%string)).
      { rewrite Hdr. cbn [String.append]. now apply decimal_char_plain. }
      destruct Hplain as [-> ->].
      rewrite (decimal_string_app _ _ _ Hd Hne Hx HX).
      rewrite (read_digits_stops _ _ _ _ Hd Hc), Hr. do 2 f_equal. lia. }
  split; [exact Hp|].
  unfold get_tasks_id, put_tasks_id, delete_tasks_id.
  now rewrite Hp, parseInt_decimal.
Qed.

Lemma X6_text_after_id_ignored_witness :
  parseInt "12.5" = Some 12.
Proof.
  apply (X6_text_after_id_ignored 12 "." "5" ""
           (mkBody VUndefined VUndefined VUndefined VUndefined VUndefined
              VUndefined) []);
    [unfold two53; lia|reflexivity|discriminate|discriminate].
Defined.

(** ** DELETE /tasks/:id *)

Lemma findIndex_ids (r : option Z) (l1 l2 : list Task) :
  map task_id l1 = map task_id l2 ->
  findIndex (id_is r) l1 = findIndex (id_is r) l2.
Proof.
  revert l2. induction l1 as [|x l1 IH]; intros [|y l2]; cbn;
    try discriminate; [reflexivity|].
  intros [= Hxy Hrest]. unfold id_is at 1 3. rewrite Hxy.
  destruct r as [n|]; [destruct (task_id y =? n); [reflexivity|]|];
    now rewrite (IH l2 Hrest).
Qed.

Lemma delete_at (tasks : list Task) (i : nat) (t : Task) :
  tasks !! i = Some t ->
  exists l1 l2, tasks = (l1 ++ t :: l2)%list
                /\ delete i tasks = (l1 ++ l2)%list.
Proof.
  intros Ht. exists (take i tasks), (drop (S i) tasks). split.
  - symmetry. now apply take_drop_middle.
  - apply delete_take_drop.
Qed.

(** X7: DELETE /tasks/:id on the id of a stored task, in a store with
    unique ids, answers 200 "Task deleted successfully" and removes
    exactly that record: the store is one shorter, no record with the
    id is left, and the other records stay, in their order. *)
Theorem X7_delete_removes_one_record (id_param : string)
  (tasks : list Task) (t : Task) :
  NoDup (map task_id tasks) ->
  t ∈ tasks ->
  parseInt id_param = Some (task_id t) ->
  exists before after,
    tasks = (before ++ t :: after)%list
    /\ delete_tasks_id id_param tasks
       = ((before ++ after)%list,
          {| status := 200; json := JMessage "Task deleted successfully" |})
    /\ (forall u, u ∈ (before ++ after)%list -> task_id u <> task_id t)
    /\ (forall u, u ∈ tasks -> u <> t -> u ∈ (before ++ after)%list).
Proof.
  intros Hnd Ht Hp. destruct (task_with_id _ _ _ Ht Hp) as [i F].
  destruct (put_found _ _ _ F) as (x & Hx & Hpx).
  assert (x = t) as ->.
  { apply (same_id_same_task tasks); auto.
    - apply list_elem_of_lookup. eauto.
    - congruence. }
  destruct (delete_at _ _ _ Hx) as (l1 & l2 & E & Hdel).
  exists l1, l2. split; [exact E|]. split.
  - unfold delete_tasks_id. now rewrite F, Hdel.
  - rewrite E in Hnd. rewrite map_app in Hnd. cbn in Hnd.
    apply NoDup_app in Hnd as (_ & Hl1 & Hnd). apply NoDup_cons in Hnd as [Hl2 _].
    split.
    + intros u Hu Hsame. apply elem_of_app in Hu as [Hu|Hu].
      * apply (Hl1 (task_id u)); [now apply (list_elem_of_fmap_2 task_id)|].
        rewrite Hsame. apply list_elem_of_here.
      * apply Hl2. rewrite <- Hsame. now apply (list_elem_of_fmap_2 task_id).
    + intros u Hu Hne. rewrite E in Hu.
      apply elem_of_app in Hu as [Hu|Hu]; [apply elem_of_app; now left|].
      apply elem_of_cons in Hu as [->|Hu]; [contradiction|].
      apply elem_of_app. now right.
Qed.

Lemma X7_delete_removes_one_record_witness :
  let a := mkTask 1 (VString "A") (VString "B") (VBool true)
             (VString "high") (VString "2025-12-28T16:30:59.889Z") in
  let b := mkTask 2 (VString "C") (VString "D") (VBool false)
             (VString "medium") (VString "2025-12-28T16:31:00.000Z") in
  exists before after,
    [a; b] = (before ++ a :: after)%list
    /\ delete_tasks_id "1" [a; b]
       = ((before ++ after)%list,
          {| status := 200; json := JMessage "Task deleted successfully" |})
    /\ (forall u, u ∈ (before ++ after)%list -> task_id u <> 1)
    /\ (forall u, u ∈ [a; b] -> u <> a -> u ∈ (before ++ after)%list).
Proof.
  intros a b. apply (X7_delete_removes_one_record "1" [a; b] a).
  - repeat constructor; rewrite ?elem_of_cons, ?elem_of_nil; cbn; lia.
  - apply list_elem_of_here.
  - reflexivity.
Defined.

(** X8: in a store with unique ids, once DELETE /tasks/:id has been
    served the same segment names no task any more: GET, PUT (whatever
    the body) and a second DELETE answer 404 and leave the store as the
    first DELETE left it. *)
Theorem X8_deleted_id_is_gone (now id_param : string) (body : Body)
  (tasks : list Task) :
  NoDup (map task_id tasks) ->
  let tasks' := fst (delete_tasks_id id_param tasks) in
  get_tasks_id id_param tasks' = not_found
  /\ put_tasks_id now id_param body tasks' = (tasks', not_found)
  /\ delete_tasks_id id_param tasks' = (tasks', not_found).
Proof.
  intros Hnd tasks'.
  assert (Hnone : findIndex (id_is (parseInt id_param)) tasks' = None).
  { apply findIndex_None. intros u Hu. subst tasks'. unfold delete_tasks_id in Hu.
    destruct (findIndex (id_is (parseInt id_param)) tasks) as [i|] eqn:F.
    - cbn [fst] in Hu. destruct (put_found _ _ _ F) as (x & Hx & Hpx).
      destruct (delete_at _ _ _ Hx) as (l1 & l2 & E & Hdel).
      rewrite Hdel in Hu. rewrite E, map_app in Hnd. cbn in Hnd.
      apply NoDup_app in Hnd as (_ & Hl1 & Hnd).
      apply NoDup_cons in Hnd as [Hl2 _].
      apply id_is_false. rewrite Hpx. intros [= Hsame].
      apply elem_of_app in Hu as [Hu|Hu].
      + apply (Hl1 (task_id u)); [now apply (list_elem_of_fmap_2 task_id)|].
        rewrite <- Hsame. apply list_elem_of_here.
      + apply Hl2. rewrite Hsame. now apply (list_elem_of_fmap_2 task_id).
    - cbn [fst] in Hu. rewrite findIndex_None in F. now apply F. }
  unfold get_tasks_id, put_tasks_id, delete_tasks_id.
  now rewrite (find_None_findIndex _ _ Hnone), Hnone.
Qed.

Lemma X8_deleted_id_is_gone_witness :
  let a := mkTask 1 (VString "A") (VString "B") (VBool true)
             (VString "high") (VString "2025-12-28T16:30:59.889Z") in
  get_tasks_id "1" (fst (delete_tasks_id "1" [a])) = not_found
  /\ put_tasks_id "2026-01-01T00:00:00.000Z" "1"
       (mkBody VUndefined (VString "C") (VString "D") (VBool true)
          VUndefined VUndefined)
       (fst (delete_tasks_id "1" [a]))
     = (fst (delete_tasks_id "1" [a]), not_found)
  /\ delete_tasks_id "1" (fst (delete_tasks_id "1" [a]))
     = (fst (delete_tasks_id "1" [a]), not_found).
Proof.
  intros a.
  apply (X8_deleted_id_is_gone "2026-01-01T00:00:00.000Z" "1"
           (mkBody VUndefined (VString "C") (VString "D") (VBool true)
              VUndefined VUndefined) [a]).
  apply NoDup_singleton.
Defined.

Lemma findIndex_last_added (tasks : list Task) (t : Task) :
  (forall u, u ∈ tasks -> task_id u < task_id t) ->
  findIndex (id_is (Some (task_id t))) (tasks ++ [t]) = Some (length tasks).
Proof.
  induction tasks as [|u l IH]; intros H; cbn.
  - now rewrite Z.eqb_refl.
  - assert (Hu : task_id u < task_id t) by apply H, list_elem_of_here.
    apply Z.lt_neq, Z.eqb_neq in Hu. rewrite Hu.
    rewrite IH; [reflexivity|]. intros v Hv. apply H. now right.
Qed.

(** X9: create, then delete the returned id, and the store is exactly
    what it was before: in a store whose ids all lie between -2^53 and
    2^53 - 1, for a body that passes validation, DELETE /tasks/:id with
    the id that POST /tasks answered gives 200 and the original
    store. *)
Theorem X9_create_then_delete_restores (now : string) (body : Body)
  (tasks : list Task) :
  room_for 1 tasks ->
  validateTask body true = Valid ->
  exists t tasks',
    post_tasks now body tasks
      = (tasks', {| status := 201; json := JTask t |})
    /\ delete_tasks_id (decimal (task_id t)) tasks'
       = (tasks,
          {| status := 200; json := JMessage "Task deleted successfully" |}).
Proof.
  intros Hr Hv. eexists _, _.
  split; [apply (post_valid now body tasks
                   (room_length 1 tasks ltac:(lia) Hr) Hv)|].
  pose proof (new_id_exact 1 tasks ltac:(lia) Hr) as Hid.
  destruct (room_maxId 1 tasks ltac:(lia) Hr) as [Hlo Hhi].
  cbn [task_id]. unfold delete_tasks_id.
  rewrite Hid, parseInt_decimal by lia.
  match goal with |- context [(tasks ++ [?t])%list] => set (new := t) end.
  change (maxId tasks + 1) with (task_id new).
  rewrite findIndex_last_added.
  - f_equal. rewrite (delete_middle tasks [] new). apply app_nil_r.
  - intros u Hu. apply maxId_ge in Hu. cbn. lia.
Qed.

Lemma X9_create_then_delete_restores_witness :
  let a := mkTask 1 (VString "A") (VString "B") (VBool true)
             (VString "high") (VString "2025-12-28T16:30:59.889Z") in
  let body := mkBody VUndefined (VString "C") (VString "D") (VBool false)
                VUndefined VUndefined in
  exists t tasks',
    post_tasks "2026-01-01T00:00:00.000Z" body [a]
      = (tasks', {| status := 201; json := JTask t |})
    /\ delete_tasks_id (decimal (task_id t)) tasks'
       = ([a],
          {| status := 200; json := JMessage "Task deleted successfully" |}).
Proof.
  intros a body.
  apply (X9_create_then_delete_restores "2026-01-01T00:00:00.000Z" body [a]).
  - split; [vm_compute; discriminate|].
    split; [vm_compute; discriminate|].
    repeat constructor; vm_compute; discriminate.
  - reflexivity.
Defined.

(** ** PUT /tasks/:id, whatever its outcome *)

(** X10: PUT /tasks/:id never adds, removes or moves a record and never
    changes an id: for every segment and body the store keeps its
    length and its sequence of ids, and at most one place holds a
    different record afterwards. *)
Theorem X10_put_keeps_ids_and_places (now id_param : string) (body : Body)
  (tasks : list Task) :
  let tasks' := fst (put_tasks_id now id_param body tasks) in
  length tasks' = length tasks
  /\ map task_id tasks' = map task_id tasks
  /\ exists i : nat, forall j : nat, j <> i -> tasks' !! j = tasks !! j.
Proof.
  intros tasks'. subst tasks'. split; [|split].
  - rewrite <- (length_map task_id), put_ids. apply length_map.
  - apply put_ids.
  - unfold put_tasks_id.
    destruct (findIndex _ tasks) as [i|]; [|now exists O].
    destruct (parseInt id_param); [|now exists O].
    destruct (validateTask body true); [|now exists O].
    destruct (tasks !! i); [|now exists O].
    exists i. intros j Hj. cbn [fst]. now apply list_lookup_insert_ne.
Qed.

(** X11: what PUT /tasks/:id answers with 200 is what GET /tasks/:id
    with the same segment answers afterwards, whether or not ids are
    unique: both address the first record with the id. *)
Theorem X11_update_then_fetch (now id_param : string) (body : Body)
  (tasks : list Task) (t : Task) :
  t ∈ tasks ->
  parseInt id_param = Some (task_id t) ->
  validateTask body true = Valid ->
  exists updated tasks',
    put_tasks_id now id_param body tasks
      = (tasks', {| status := 200; json := JTask updated |})
    /\ get_tasks_id id_param tasks'
       = {| status := 200; json := JTask updated |}.
Proof.
  intros Ht Hp Hv. destruct (task_with_id _ _ _ Ht Hp) as [i F].
  destruct (put_found _ _ _ F) as (x & Hx & Hpx).
  pose proof (put_ids now id_param body tasks) as Hids.
  unfold put_tasks_id in *. rewrite F, Hpx, Hv, Hx in Hids. cbn [fst] in Hids.
  rewrite F, Hpx, Hv, Hx.
  eexists _, _. split; [reflexivity|].
  unfold get_tasks_id.
  rewrite (find_findIndex _ _ i).
  - rewrite list_lookup_insert_eq; [reflexivity|].
    now apply lookup_lt_Some in Hx.
  - now rewrite (findIndex_ids _ _ _ Hids).
Qed.

Lemma X11_update_then_fetch_witness :
  let a := mkTask 1 (VString "A") (VString "B") (VBool true)
             (VString "high") (VString "2025-12-28T16:30:59.889Z") in
  let body := mkBody VUndefined (VString "C") (VString "D") (VBool false)
                VUndefined VUndefined in
  exists updated tasks',
    put_tasks_id "2026-01-01T00:00:00.000Z" "1" body [a]
      = (tasks', {| status := 200; json := JTask updated |})
    /\ get_tasks_id "1" tasks'
       = {| status := 200; json := JTask updated |}.
Proof.
  intros a body.
  apply (X11_update_then_fetch "2026-01-01T00:00:00.000Z" "1" body [a] a).
  - apply list_elem_of_here.
  - reflexivity.
  - reflexivity.
Defined.

(** X12: PUT /tasks/:id is idempotent. Serving the same segment and
    body a second time, at a later clock reading, answers as the first
    time and leaves the store as the first request left it, be it with
    200, 400 or 404; the clock never reads as the empty text. *)
Theorem X12_put_is_idempotent (now now' id_param : string) (body : Body)
  (tasks : list Task) :
  now <> "" ->
  put_tasks_id now' id_param body
    (fst (put_tasks_id now id_param body tasks))
  = put_tasks_id now id_param body tasks.
Proof.
  intros Hnow.
  pose proof (put_ids now id_param body tasks) as Hids.
  unfold put_tasks_id in Hids. unfold put_tasks_id at 2 3.
  destruct (findIndex (id_is (parseInt id_param)) tasks) as [i|] eqn:F;
    [|unfold put_tasks_id; cbn [fst]; now rewrite F].
  destruct (put_found _ _ _ F) as (x & Hx & Hpx). rewrite Hpx in *.
  destruct (validateTask body true) eqn:Hv;
    [|unfold put_tasks_id; cbn [fst]; now rewrite Hpx, F, Hv].
  rewrite Hx in *. cbn [fst] in *.
  unfold put_tasks_id. rewrite Hpx, (findIndex_ids _ _ _ Hids), F, Hv.
  rewrite list_lookup_insert_eq by now apply lookup_lt_Some in Hx.
  cbn [task_priority task_createdAt].
  rewrite list_insert_insert_eq.
  rewrite (or_else_l (or_else (task_createdAt x) (VString now)))
    by (apply or_else_truthy, string_truthy, Hnow).
  assert (Hq : or_else (body_priority body)
                 (or_else
                    (or_else (body_priority body)
                       (or_else (task_priority x) (VString "medium")))
                    (VString "medium"))
               = or_else (body_priority body)
                   (or_else (task_priority x) (VString "medium"))).
  { destruct (truthy (body_priority body)) eqn:E.
    - now rewrite !(or_else_l (body_priority body)).
    - rewrite !(or_else_r (body_priority body)) by exact E.
      apply or_else_l. now apply or_else_truthy. }
  now rewrite Hq.
Qed.

Lemma X12_put_is_idempotent_witness :
  let bare := mkTask 1 (VString "A") (VString "B") (VBool true)
                VUndefined VUndefined in
  let body := mkBody VUndefined (VString "C") (VString "D") (VBool false)
                VUndefined VUndefined in
  put_tasks_id "2026-01-01T00:00:09.000Z" "1" body
    (fst (put_tasks_id "2026-01-01T00:00:00.000Z" "1" body [bare]))
  = put_tasks_id "2026-01-01T00:00:00.000Z" "1" body [bare].
Proof.
  intros bare body.
  apply (X12_put_is_idempotent "2026-01-01T00:00:00.000Z"
           "2026-01-01T00:00:09.000Z" "1" body [bare]).
  discriminate.
Defined.

(** ** Consecutive ids *)

Lemma maxId_after_create (tasks : list Task) (t : Task) :
  task_id t = maxId tasks + 1 -> maxId (tasks ++ [t]) = task_id t.
Proof.
  intros Ht. destruct tasks as [|u l]; [cbn in *; lia|].
  unfold maxId in *. cbn [map app] in *. rewrite map_app. cbn [map].
  unfold Math_max in *. rewrite fold_left_app. cbn [fold_left]. lia.
Qed.

(** X13: creates that pass validation, served one after the other with
    nothing in between, get consecutive ids: k of them on a store whose
    largest id is m (0 for the empty store) are assigned m+1, ..., m+k,
    and m+k is the largest id afterwards. The ids of the store leave
    room for the k creates: none is below -2^53 and none plus k is
    above 2^53. *)
Theorem X13_creates_get_consecutive_ids (ops : list op) (tasks : list Task)
  (m : Z) :
  room_for (Z.of_nat (length ops)) tasks ->
  largest_id tasks m ->
  Forall (fun o => match o with
                   | Create _ body => validateTask body true = Valid
                   | Delete _ => False
                   end) ops ->
  assigned (events ops tasks) = seqZ (m + 1) (Z.of_nat (length ops))
  /\ largest_id (store_after ops tasks) (m + Z.of_nat (length ops)).
Proof.
  intros Hr Hm Hops. apply largest_id_maxId in Hm as ->.
  cut (assigned (events ops tasks)
       = seqZ (maxId tasks + 1) (Z.of_nat (length ops))
       /\ maxId (store_after ops tasks)
          = maxId tasks + Z.of_nat (length ops)).
  { intros [H1 H2]. split; [exact H1|]. rewrite <- H2. apply maxId_largest. }
  revert tasks Hr.
  induction Hops as [|o ops Ho _ IH]; intros tasks Hr.
  - split; [reflexivity|cbn; lia].
  - destruct o as [now body|]; [|contradiction].
    destruct (room_after_step (Create now body) ops tasks Hr) as [H1 Hrest].
    pose proof (new_id_exact 1 tasks ltac:(lia) H1) as Hid.
    assert (Hstep : exists t,
      step (Create now body) tasks
        = ((tasks ++ [t])%list, Some (Assigned (maxId tasks + 1)))
      /\ task_id t = maxId tasks + 1).
    { unfold step.
      rewrite (post_valid now body tasks
                 (room_length 1 tasks ltac:(lia) H1) Ho).
      cbn [json task_id].
      rewrite Hid. eexists. split; reflexivity. }
    destruct Hstep as (t & Hstep & Ht).
    rewrite Hstep in Hrest. cbn [fst] in Hrest.
    destruct (IH (tasks ++ [t])%list Hrest) as [Hids Hmax].
    rewrite (maxId_after_create tasks t Ht), Ht in Hids, Hmax.
    unfold events in *. cbn [trace store_after length].
    rewrite Hstep. cbn [fst snd map assigned]. split.
    + rewrite Hids. rewrite (seqZ_cons (maxId tasks + 1)) by lia.
      f_equal. f_equal; lia.
    + rewrite Hmax. lia.
Qed.

Lemma X13_creates_get_consecutive_ids_witness :
  let a := mkTask 7 (VString "A") (VString "B") (VBool true)
             (VString "high") (VString "2025-12-28T16:30:59.889Z") in
  let body := mkBody VUndefined (VString "C") (VString "D") (VBool false)
                VUndefined VUndefined in
  let ops := [Create "2026-01-01T00:00:00.000Z" body;
              Create "2026-01-01T00:00:01.000Z" body;
              Create "2026-01-01T00:00:02.000Z" body] in
  assigned (events ops [a]) = [8; 9; 10]
  /\ largest_id (store_after ops [a]) 10.
Proof.
  intros a body ops.
  apply (X13_creates_get_consecutive_ids ops [a] 7).
  - split; [vm_compute; discriminate|].
    split; [vm_compute; discriminate|].
    repeat constructor; vm_compute; discriminate.
  - split.
    + exists a. split; [apply list_elem_of_here|reflexivity].
    + intros v Hv. apply list_elem_of_singleton in Hv as ->. cbn. lia.
  - repeat constructor.
Defined.

(** ** Well-formed records *)

Lemma valid_rules (body : Body) :
  validateTask body true = Valid ->
  nonblank_string (body_title body) = true
  /\ nonblank_string (body_description body) = true
  /\ is_boolean (body_completed body) = true.
Proof.
  rewrite validateTask_first_failure. unfold first_failure, rule_order.
  cbn [List.find rule_holds].
  destruct (nonblank_string (body_title body)); cbn [negb]; [|discriminate].
  destruct (nonblank_string (body_description body)); cbn [negb];
    [|discriminate].
  destruct (is_boolean (body_completed body)); cbn [negb]; [|discriminate].
  auto.
Qed.

Lemma includes_truthy (v : value) :
  includes validPriorities v = true -> truthy v = true.
Proof.
  destruct v as [| |b|n|s|]; try discriminate.
  intros H. apply includes_In in H. cbn in H.
  destruct H as [<-|[<-|[<-|[]]]]; reflexivity.
Qed.

Lemma written_priority (body : Body) (fallback : value) :
  validateTask body true = Valid ->
  includes validPriorities fallback = true ->
  includes validPriorities (or_else (body_priority body) fallback) = true.
Proof.
  intros Hv Hf. destruct (valid_priority _ Hv) as [->|(Ht & p & Hp & Hin)].
  - now rewrite or_else_r.
  - rewrite or_else_l by exact Ht. rewrite Hp. now apply includes_In.
Qed.

Lemma post_well_formed (now : string) (body : Body) (tasks : list Task) :
  Forall (fun t => well_formed t = true) tasks ->
  Forall (fun t => well_formed t = true) (fst (post_tasks now body tasks)).
Proof.
  intros H. unfold post_tasks.
  destruct (validateTask body true) eqn:Hv; [|exact H].
  destruct (argument_limit <? Z.of_nat (length tasks)); cbn [fst]; [exact H|].
  apply Forall_app. split; [exact H|]. constructor; [|constructor].
  destruct (valid_rules _ Hv) as (Ht & Hd & Hc).
  unfold well_formed. cbn [task_title task_description task_completed
                             task_priority].
  now rewrite Ht, Hd, Hc, (written_priority body (VString "medium") Hv).
Qed.

Lemma put_well_formed (now id_param : string) (body : Body)
  (tasks : list Task) :
  Forall (fun t => well_formed t = true) tasks ->
  Forall (fun t => well_formed t = true)
    (fst (put_tasks_id now id_param body tasks)).
Proof.
  intros H. unfold put_tasks_id.
  destruct (findIndex _ tasks) as [i|]; [|exact H].
  destruct (parseInt id_param) as [n|]; [|exact H].
  destruct (validateTask body true) eqn:Hv; [|exact H].
  destruct (tasks !! i) as [x|] eqn:Hx; [|exact H]. cbn [fst].
  apply Forall_insert; [exact H|].
  assert (Hxp : includes validPriorities (task_priority x) = true).
  { rewrite Forall_forall in H.
    assert (Hw : well_formed x = true)
      by (apply H, list_elem_of_lookup; eauto).
    unfold well_formed in Hw. now apply andb_true_iff in Hw as [_ Hw]. }
  destruct (valid_rules _ Hv) as (Ht & Hd & Hc).
  unfold well_formed. cbn [task_title task_description task_completed
                             task_priority].
  rewrite Ht, Hd, Hc. cbn [andb].
  apply (written_priority body _ Hv).
  now rewrite or_else_l by now apply includes_truthy.
Qed.

Lemma backfill_well_formed (now : string) (t : Task) :
  well_formed t = true -> well_formed (backfill now t) = true.
Proof.
  unfold well_formed, backfill.
  cbn [task_title task_description task_completed task_priority].
  intros H. apply andb_true_iff in H as [H Hp]. rewrite H. cbn [andb].
  now rewrite or_else_l by now apply includes_truthy.
Qed.

(** X14: the service keeps its records well formed. When every record
    of the start-up file has a title and a description that are strings
    with more than white space, a boolean completed and a priority that
    is exactly low, medium or high, then so has every record of the
    store after start-up and any sequence of POST, PUT and DELETE
    requests, valid or not. *)
Theorem X14_records_stay_well_formed (clock : nat -> string)
  (file : list Task) (rs : list request) :
  Forall (fun t => well_formed t = true) file ->
  Forall (fun t => well_formed t = true)
    (serve_all rs (initial_tasks clock (Some file))).
Proof.
  intros Hfile.
  assert (Hinit : Forall (fun t => well_formed t = true)
                    (initial_tasks clock (Some file))).
  { cbn [initial_tasks]. apply Forall_lookup. intros i t.
    rewrite list_lookup_imap. destruct (file !! i) as [u|] eqn:Hu; [|discriminate].
    cbn. intros [= <-]. apply backfill_well_formed.
    rewrite Forall_forall in Hfile. apply Hfile, list_elem_of_lookup. eauto. }
  revert Hinit. generalize (initial_tasks clock (Some file)).
  induction rs as [|r rs IH]; intros tasks Htasks; cbn [serve_all fold_left].
  - exact Htasks.
  - apply IH. destruct r; cbn [serve];
      auto using post_well_formed, put_well_formed, delete_keeps.
Qed.

Lemma X14_records_stay_well_formed_witness :
  let a := mkTask 1 (VString "A") (VString "B") (VBool true)
             (VString "high") VUndefined in
  let body := mkBody VUndefined (VString "C") (VString "D") (VBool false)
                VUndefined VUndefined in
  Forall (fun t => well_formed t = true)
    (serve_all [Post "2026-01-01T00:00:00.000Z" body;
                Put "2026-01-01T00:00:01.000Z" "1" body;
                Del "2"]
       (initial_tasks (fun _ => "2026-01-01T00:00:00.000Z") (Some [a]))).
Proof.
  intros a body.
  apply (X14_records_stay_well_formed (fun _ => "2026-01-01T00:00:00.000Z") [a]).
  repeat constructor.
Defined.

(** ** GET /tasks, every query *)

Lemma selected_sublist (query : Query) (tasks : list Task) :
  sublist (selected query tasks) tasks.
Proof.
  unfold selected. destruct (query_completed query);
    try apply filter_sublist. reflexivity.
Qed.







(** ** The two orders of GET /tasks *)

Lemma Array_sort_in_order (Date_parse : string -> option Z) (sort : value)
  (l : list Task) :
  (forall t, t ∈ l -> time_value Date_parse t <> None) ->
  NoDup (map (timestamp Date_parse) l) ->
  StronglySorted
    (in_order Date_parse (strict_equals sort (VString "oldest")))
    (Array_sort (compare_createdAt Date_parse sort) l).
Proof.
  intros Hparse Hnd.
  set (key := fun t =>
      if strict_equals sort (VString "oldest")
      then timestamp Date_parse t else - timestamp Date_parse t).
  apply (StronglySorted_refine (fun a b => key a <= key b) _
           (timestamp Date_parse)).
  - intros a b. unfold key, in_order.
    destruct (strict_equals sort (VString "oldest")); lia.
  - change (NoDup (timestamp Date_parse
                     <$> Array_sort (compare_createdAt Date_parse sort) l)).
    now rewrite Array_sort_Permutation.
  - apply (Array_sort_StronglySorted _ key).
    intros x y Hx Hy. apply compare_createdAt_key; now apply Hparse.
Qed.

Lemma StronglySorted_reverse {A : Type} (R : A -> A -> Prop) (l : list A) :
  StronglySorted R l -> StronglySorted (fun a b => R b a) (reverse l).
Proof.
  induction 1 as [|x l Hs IH Hx]; [constructor|].
  rewrite reverse_cons. apply StronglySorted_app. split; [|split].
  - intros a b Ha Hb. apply list_elem_of_singleton in Hb as ->.
    rewrite Forall_forall in Hx. apply Hx. now apply elem_of_reverse.
  - exact IH.
  - repeat constructor.
Qed.

(** X17: when every createdAt in the store is missing or parses as a
    date and no two tasks have the same timestamp, the answer to
    sort=oldest is the answer to any other (or no) sort value read
    backwards, for the same completed parameter. *)
Theorem X17_oldest_is_newest_reversed (Date_parse : string -> option Z)
  (completed sort : value) (tasks : list Task) :
  (forall t, t ∈ tasks -> time_value Date_parse t <> None) ->
  NoDup (map (timestamp Date_parse) tasks) ->
  sort <> VString "oldest" ->
  exists l,
    get_tasks Date_parse (mkQuery completed sort) tasks
      = {| status := 200; json := JTasks l |}
    /\ get_tasks Date_parse (mkQuery completed (VString "oldest")) tasks
       = {| status := 200; json := JTasks (reverse l) |}.
Proof.
  intros Hparse Hnd Hsort. eexists. split; [apply get_tasks_sorts_selected|].
  rewrite get_tasks_sorts_selected. do 2 f_equal.
  change (selected (mkQuery completed (VString "oldest")) tasks)
    with (selected (mkQuery completed sort) tasks).
  set (sel := selected (mkQuery completed sort) tasks).
  cbn [query_sort].
  assert (Hsub : sublist sel tasks) by apply selected_sublist.
  assert (Hp : forall t, t ∈ sel -> time_value Date_parse t <> None).
  { intros t Ht. apply Hparse. eapply elem_of_sublist; eauto. }
  assert (Hn : NoDup (map (timestamp Date_parse) sel)).
  { apply (sublist_NoDup _ _ Hnd).
    now apply (fmap_sublist (timestamp Date_parse)). }
  pose proof (Array_sort_in_order Date_parse (VString "oldest") sel Hp Hn) as Ho.
  pose proof (Array_sort_in_order Date_parse sort sel Hp Hn) as Hd.
  assert (Es : strict_equals sort (VString "oldest") = false).
  { destruct sort as [| | | |s|]; try reflexivity. cbn.
    apply String.eqb_neq. congruence. }
  rewrite Es in Hd. cbn in Ho. apply StronglySorted_reverse in Hd.
  apply (StronglySorted_unique_strong
           (fun a b => timestamp Date_parse a < timestamp Date_parse b));
    [|exact Ho|exact Hd|].
  - intros x y _ _ H1 H2. lia.
  - now rewrite reverse_Permutation, !Array_sort_Permutation.
Qed.

Lemma X17_oldest_is_newest_reversed_witness :
  let a := mkTask 1 (VString "A") (VString "B") (VBool true)
             (VString "high") (VString "2025-12-28T16:30:59.889Z") in
  let b := mkTask 2 (VString "C") (VString "D") (VBool false)
             (VString "medium") VUndefined in
  exists l,
    get_tasks Date_parse_iso (mkQuery VUndefined VUndefined) [a; b]
      = {| status := 200; json := JTasks l |}
    /\ get_tasks Date_parse_iso (mkQuery VUndefined (VString "oldest")) [a; b]
       = {| status := 200; json := JTasks (reverse l) |}.
Proof.
  intros a b.
  apply (X17_oldest_is_newest_reversed Date_parse_iso VUndefined VUndefined
           [a; b]).
  - intros t Ht. repeat (apply elem_of_cons in Ht as [->|Ht]); try discriminate.
    inversion Ht.
  - assert (E : map (timestamp Date_parse_iso) [a; b] = [1766939459889; 0])
      by reflexivity.
    rewrite E. repeat constructor; rewrite ?elem_of_cons, ?elem_of_nil; lia.
  - discriminate.
Defined.

(** ** Equal timestamps *)

Lemma StronglySorted_impl {A : Type} (R R' : A -> A -> Prop) (l : list A) :
  (forall a b, R a b -> R' a b) -> StronglySorted R l -> StronglySorted R' l.
Proof.
  intros HR. induction 1 as [|x l Hs IH Hx]; constructor; [exact IH|].
  eapply Forall_impl; [exact Hx|]. intros y. apply HR.
Qed.

Section SameKey.

Context {A : Type} (compare : A -> A -> option Z) (key : A -> Z).

Lemma insert_sorted_same_key (x : A) (l : list A) (k : Z) :
  (forall y, y ∈ l -> compare x y = Some (key x - key y)) ->
  List.filter (fun a => key a =? k) (insert_sorted compare x l)
  = List.filter (fun a => key a =? k) (x :: l).
Proof.
  induction l as [|y l IH]; intros Hc; [reflexivity|].
  cbn [insert_sorted]. rewrite (Hc y) by apply list_elem_of_here.
  change (SortCompare (Some (key x - key y))) with (key x - key y).
  destruct (key x - key y <=? 0) eqn:E; [reflexivity|].
  apply Z.leb_gt in E. cbn [List.filter].
  rewrite IH by (intros z Hz; apply Hc; now right). cbn [List.filter].
  destruct (key x =? k) eqn:Ex, (key y =? k) eqn:Ey; try reflexivity.
  apply Z.eqb_eq in Ex, Ey. lia.
Qed.

Lemma Array_sort_same_key (l : list A) (k : Z) :
  (forall x y, x ∈ l -> y ∈ l -> compare x y = Some (key x - key y)) ->
  List.filter (fun a => key a =? k) (Array_sort compare l)
  = List.filter (fun a => key a =? k) l.
Proof.
  induction l as [|x l IH]; intros Hc; [reflexivity|].
  change (Array_sort compare (x :: l))
    with (insert_sorted compare x (Array_sort compare l)).
  rewrite insert_sorted_same_key.
  - cbn [List.filter]. rewrite IH by (intros y z Hy Hz; apply Hc; now right).
    reflexivity.
  - intros y Hy. rewrite Array_sort_Permutation in Hy.
    apply Hc; [apply list_elem_of_here|now right].
Qed.

End SameKey.

(** X18: with equal timestamps allowed. When every createdAt in the
    store is missing or parses as a date, GET /tasks lists the selected
    tasks with no older task before a newer one (no newer before an
    older with sort=oldest), and tasks with the same timestamp stand in
    the order the store has them. *)
Theorem X18_ties_keep_store_order (Date_parse : string -> option Z)
  (query : Query) (tasks : list Task) :
  (forall t, t ∈ tasks -> time_value Date_parse t <> None) ->
  exists l,
    get_tasks Date_parse query tasks = {| status := 200; json := JTasks l |}
    /\ StronglySorted
         (fun a b =>
            if is_oldest query
            then timestamp Date_parse a <= timestamp Date_parse b
            else timestamp Date_parse b <= timestamp Date_parse a) l
    /\ (forall k,
          List.filter (fun t => timestamp Date_parse t =? k) l
          = List.filter (fun t => timestamp Date_parse t =? k)
              (selected query tasks)).
Proof.
  intros Hparse. eexists. split; [apply get_tasks_sorts_selected|].
  set (sel := selected query tasks).
  set (key := fun t =>
      if strict_equals (query_sort query) (VString "oldest")
      then timestamp Date_parse t else - timestamp Date_parse t).
  assert (Hc : forall x y, x ∈ sel -> y ∈ sel ->
    compare_createdAt Date_parse (query_sort query) x y
    = Some (key x - key y)).
  { intros x y Hx Hy. apply compare_createdAt_key; apply Hparse;
      eapply elem_of_sublist; eauto using selected_sublist. }
  split.
  - apply (StronglySorted_impl (fun a b => key a <= key b)).
    + intros a b. unfold key, is_oldest.
      destruct (strict_equals (query_sort query) (VString "oldest")); lia.
    + now apply Array_sort_StronglySorted.
  - intros k.
    set (k' := if strict_equals (query_sort query) (VString "oldest")
               then k else - k).
    assert (Hk : forall t, (timestamp Date_parse t =? k) = (key t =? k')).
    { intros t. unfold key, k'.
      destruct (strict_equals (query_sort query) (VString "oldest"));
        [reflexivity|].
      destruct (timestamp Date_parse t =? k) eqn:E1; symmetry.
      - apply Z.eqb_eq in E1. apply Z.eqb_eq. lia.
      - apply Z.eqb_neq in E1. apply Z.eqb_neq. lia. }
    rewrite !(List.filter_ext _ _ Hk).
    now apply Array_sort_same_key.
Qed.

Lemma X18_ties_keep_store_order_witness :
  let a := mkTask 1 (VString "A") (VString "B") (VBool true)
             (VString "high") (VString "2025-12-28T16:30:59.889Z") in
  let b := mkTask 2 (VString "C") (VString "D") (VBool false)
             (VString "medium") (VString "2025-12-28T16:30:59.889Z") in
  exists l,
    get_tasks Date_parse_iso (mkQuery VUndefined VUndefined) [a; b]
      = {| status := 200; json := JTasks l |}
    /\ List.filter (fun t => timestamp Date_parse_iso t =? 1766939459889) l
       = [a; b].
Proof.
  intros a b.
  destruct (X18_ties_keep_store_order Date_parse_iso
              (mkQuery VUndefined VUndefined) [a; b]) as (l & Hl & _ & Hk).
  - intros t Ht. repeat (apply elem_of_cons in Ht as [->|Ht]); try discriminate.
    inversion Ht.
  - exists l. split; [exact Hl|]. now rewrite Hk.
Defined.

(** ** The filters split the store *)





Lemma valid_priority_counts (t : Task) :
  includes validPriorities (task_priority t) = true ->
  exists p, task_priority t = VString p /\ priority_or_medium t = Some p
            /\ In p ["low"; "medium"; "high"].
Proof.
  intros H. destruct (task_priority t) as [| | | |p|] eqn:E; try discriminate H.
  apply includes_In in H. exists p. unfold priority_or_medium. rewrite E.
  cbn in H. destruct H as [<-|[<-|[<-|[]]]]; cbn; auto 6.
Qed.

Lemma priority_route_lists (level : string) (tasks : list Task) :
  In level ["low"; "medium"; "high"] ->
  Forall (fun t => includes validPriorities (task_priority t) = true) tasks ->
  get_tasks_priority level tasks
  = {| status := 200;
       json := JTasks (List.filter (has_priority level) tasks) |}.
Proof.
  intros Hl Hall.
  assert (El : toLowerCase level = level)
    by (cbn in Hl; destruct Hl as [<-|[<-|[<-|[]]]]; reflexivity).
  unfold get_tasks_priority. rewrite El.
  apply includes_In in Hl. unfold validPriorities. rewrite Hl. cbn [negb].
  rewrite (filter_throwing_total _ (has_priority level)); [reflexivity|].
  eapply Forall_impl; [exact Hall|]. cbn beta. intros t Ht.
  destruct (valid_priority_counts t Ht) as (p & _ & Hp & _).
  rewrite priority_matches_spec. unfold has_priority, same_ignoring_case.
  now rewrite Hp, El.
Qed.

(** X20: the three priority routes split the store. When every stored
    priority is exactly low, medium or high, as POST and PUT write it,
    the answers to GET /tasks/priority/low, /medium and /high are 200
    and together hold every task of the store exactly once. *)
Theorem X20_priority_routes_split (tasks : list Task) :
  Forall (fun t => includes validPriorities (task_priority t) = true) tasks ->
  exists low medium high,
    get_tasks_priority "low" tasks = {| status := 200; json := JTasks low |}
    /\ get_tasks_priority "medium" tasks
       = {| status := 200; json := JTasks medium |}
    /\ get_tasks_priority "high" tasks
       = {| status := 200; json := JTasks high |}
    /\ Permutation (low ++ medium ++ high) tasks.
Proof.
  intros Hall. eexists _, _, _.
  split; [apply priority_route_lists; [cbn; auto|exact Hall]|].
  split; [apply priority_route_lists; [cbn; auto|exact Hall]|].
  split; [apply priority_route_lists; [cbn; auto|exact Hall]|].
  induction Hall as [|x l Hx _ IH]; [reflexivity|]. cbn [List.filter].
  assert (Hh : forall level,
    has_priority level x
    = match task_priority x with
      | VString p => same_ignoring_case p level
      | _ => false
      end).
  { intros level. unfold has_priority.
    destruct (valid_priority_counts x Hx) as (p & Ep & Hp & _).
    now rewrite Hp, Ep. }
  rewrite !Hh.
  destruct (task_priority x) as [| | | |p|]; try discriminate Hx.
  apply includes_In in Hx. cbn in Hx.
  destruct Hx as [<-|[<-|[<-|[]]]];
    repeat match goal with
           | |- context [same_ignoring_case ?a ?b] =>
               let v := eval vm_compute in (same_ignoring_case a b) in
               change (same_ignoring_case a b) with v
           end;
    cbn iota.
  - cbn [app]. now apply perm_skip.
  - etransitivity; [|apply perm_skip, IH].
    symmetry.
    apply (Permutation_middle (List.filter (has_priority "low") l)
             (List.filter (has_priority "medium") l
              ++ List.filter (has_priority "high") l) x).
  - rewrite app_assoc, <- Permutation_middle, <- app_assoc.
    now apply perm_skip.
Qed.

Lemma X20_priority_routes_split_witness :
  let a := mkTask 1 (VString "A") (VString "B") (VBool true)
             (VString "high") (VString "2025-12-28T16:30:59.889Z") in
  let b := mkTask 2 (VString "C") (VString "D") (VBool false)
             (VString "medium") (VString "2025-12-28T16:31:00.000Z") in
  exists low medium high,
    get_tasks_priority "low" [a; b] = {| status := 200; json := JTasks low |}
    /\ get_tasks_priority "medium" [a; b]
       = {| status := 200; json := JTasks medium |}
    /\ get_tasks_priority "high" [a; b]
       = {| status := 200; json := JTasks high |}
    /\ Permutation (low ++ medium ++ high) [a; b].
Proof.
  intros a b. apply (X20_priority_routes_split [a; b]).
  repeat constructor.
Defined.

(** ** Sequences of requests *)

Lemma serve_NoDup (r : request) (tasks : list Task) :
  room_for 1 tasks ->
  NoDup (map task_id tasks) -> NoDup (map task_id (serve r tasks)).
Proof.
  intros Hr. destruct r; cbn [serve];
    auto using post_NoDup, put_NoDup, delete_NoDup.
Qed.

Lemma serve_room (r : request) (tasks : list Task) (k : Z) :
  1 <= k -> room_for k tasks -> room_for (k - 1) (serve r tasks).
Proof.
  intros Hk Hr. destruct r; cbn [serve].
  - now apply post_room.
  - apply (room_for_le k); [lia|now apply put_room].
  - apply (room_for_le k); [lia|now apply delete_room].
Qed.

Lemma initial_tasks_ids (clock : nat -> string) (file : list Task) :
  map task_id (initial_tasks clock (Some file)) = map task_id file.
Proof.
  cbn [initial_tasks]. revert clock.
  induction file as [|t l IH]; intros clock; cbn; [reflexivity|].
  f_equal. apply (IH (fun i => clock (S i))).
Qed.

(** X21: ids stay unique. When the ids of the start-up file are
    pairwise different and leave room for the requests within the range
    where doubles count exactly (none below -2^53, none plus the number
    of requests above 2^53), the ids of the store are pairwise
    different after start-up and after any sequence of POST, PUT and
    DELETE requests, whatever their segments and bodies. *)
Theorem X21_ids_stay_unique (clock : nat -> string) (file : list Task)
  (rs : list request) :
  room_for (Z.of_nat (length rs)) file ->
  NoDup (map task_id file) ->
  NoDup (map task_id (serve_all rs (initial_tasks clock (Some file)))).
Proof.
  intros Hroom Hfile.
  apply (room_for_ids _ _ _ (initial_tasks_ids clock file)) in Hroom.
  rewrite <- (initial_tasks_ids clock file) in Hfile.
  revert Hroom Hfile. generalize (initial_tasks clock (Some file)).
  induction rs as [|r rs IH]; intros tasks Hr Hnd; cbn [serve_all fold_left].
  - exact Hnd.
  - cbn [length] in Hr. rewrite Nat2Z.inj_succ in Hr. apply IH.
    + replace (Z.of_nat (length rs))
        with (Z.succ (Z.of_nat (length rs)) - 1) by lia.
      apply serve_room; [lia|exact Hr].
    + apply serve_NoDup; [|exact Hnd].
      apply (room_for_le (Z.succ (Z.of_nat (length rs)))); [lia|exact Hr].
Qed.

Lemma X21_ids_stay_unique_witness :
  let a := mkTask 1 (VString "A") (VString "B") (VBool true)
             (VString "high") VUndefined in
  let body := mkBody (VNumber 1) (VString "C") (VString "D") (VBool false)
                VUndefined VUndefined in
  NoDup (map task_id
           (serve_all [Post "2026-01-01T00:00:00.000Z" body;
                       Del "2";
                       Post "2026-01-01T00:00:01.000Z" body;
                       Put "2026-01-01T00:00:02.000Z" "2" body]
              (initial_tasks (fun _ => "2026-01-01T00:00:00.000Z")
                 (Some [a])))).
Proof.
  intros a body.
  apply (X21_ids_stay_unique (fun _ => "2026-01-01T00:00:00.000Z") [a]).
  - split; [vm_compute; discriminate|].
    split; [vm_compute; discriminate|].
    repeat constructor; vm_compute; discriminate.
  - apply NoDup_singleton.
Defined.

Lemma serve_keeps_place (r : request) (tasks : list Task) (i : nat)
  (t : Task) :
  match r with Del _ => False | _ => True end ->
  tasks !! i = Some t ->
  truthy (task_createdAt t) = true ->
  exists t', serve r tasks !! i = Some t'
             /\ task_id t' = task_id t
             /\ task_createdAt t' = task_createdAt t.
Proof.
  intros Hr Ht Hc. destruct r as [now body|now id_param body|]; [| |contradiction];
    cbn [serve].
  - unfold post_tasks. destruct (validateTask body true); [|exists t; auto].
    destruct (argument_limit <? Z.of_nat (length tasks)); cbn [fst].
    + exists t. auto.
    + exists t. split; [now apply lookup_app_l_Some|auto].
  - unfold put_tasks_id.
    destruct (findIndex _ tasks) as [j|] eqn:F; [|exists t; auto].
    destruct (put_found _ _ _ F) as (x & Hx & Hpx). rewrite Hpx.
    destruct (validateTask body true); [|exists t; auto].
    rewrite Hx. cbn [fst].
    destruct (Nat.eq_dec i j) as [->|Hne].
    + assert (x = t) as -> by congruence.
      eexists. split.
      * apply list_lookup_insert_eq. now apply lookup_lt_Some in Hx.
      * cbn. split; [reflexivity|]. now apply or_else_l.
    + exists t. split; [|auto]. rewrite list_lookup_insert_ne; auto.
Qed.

(** X22: as long as nothing is deleted, records never move and never
    lose their id or createdAt: after any sequence of POST and PUT
    requests, valid or not, the place that held a task with a createdAt
    holds a task with the same id and the same createdAt. *)
Theorem X22_id_and_createdAt_are_kept (rs : list request)
  (tasks : list Task) (i : nat) (t : Task) :
  Forall (fun r => match r with Del _ => False | _ => True end) rs ->
  tasks !! i = Some t ->
  truthy (task_createdAt t) = true ->
  exists t', serve_all rs tasks !! i = Some t'
             /\ task_id t' = task_id t
             /\ task_createdAt t' = task_createdAt t.
Proof.
  intros Hrs. revert tasks t.
  induction Hrs as [|r rs Hr _ IH]; intros tasks t Ht Hc;
    cbn [serve_all fold_left].
  - exists t. auto.
  - destruct (serve_keeps_place r tasks i t Hr Ht Hc) as (u & Hu & Hid & Hcu).
    destruct (IH (serve r tasks) u Hu) as (t' & Ht' & Hid' & Hc').
    + now rewrite Hcu.
    + exists t'. split; [exact Ht'|]. split; congruence.
Qed.

Lemma X22_id_and_createdAt_are_kept_witness :
  let a := mkTask 1 (VString "A") (VString "B") (VBool true)
             (VString "high") (VString "2025-12-28T16:30:59.889Z") in
  let body := mkBody (VNumber 9) (VString "C") (VString "D") (VBool false)
                VUndefined (VString "1999-01-01T00:00:00.000Z") in
  exists t',
    serve_all [Put "2026-01-01T00:00:00.000Z" "1" body;
               Post "2026-01-01T00:00:01.000Z" body] [a] !! 0%nat = Some t'
    /\ task_id t' = 1
    /\ task_createdAt t' = VString "2025-12-28T16:30:59.889Z".
Proof.
  intros a body.
  apply (X22_id_and_createdAt_are_kept
           [Put "2026-01-01T00:00:00.000Z" "1" body;
            Post "2026-01-01T00:00:01.000Z" body] [a] 0%nat a).
  - repeat constructor.
  - reflexivity.
  - reflexivity.
Defined.
